(** * Maestro front end: view-state logic of the mission and writing panels

    A shallow embedding of the state handling of three React components,

    - [NotesTab]          (features/mission/components/NotesTab.tsx),
    - [WritingChatPanel]  (the writing chat panel),
    - [AgentActivityLog]  (components/mission/AgentActivityLog.tsx),

    together with the properties the specification states about them.

    Conventions of the embedding.

    - A JavaScript string is a [string]: a sequence of code units, here
      restricted to the range 0..255 (the Latin-1 part of UTF-16).
    - A JavaScript count (array length, total, offset) is a [nat]; where the
      source subtracts two counts the subtraction is done in [Z]. The page
      size of a request, a literal of the source, is kept in binary ([N]).
    - An optional field ([field?: T], possibly [undefined]) is an [option].
    - React state and refs of a component are the fields of one record; a
      handler is a function from that record to the new record and the list
      of effects it performed on its collaborators (HTTP client, store,
      toasts, timers, console), in program order.
    - An [async] handler is cut at its [await]: the part up to the request,
      which answers whether a request is now in flight, and the part that
      runs when the request has settled; the handler under the source's name
      runs the two in a row.
    - A handler reads the state as it is when it runs: the render whose
      closure it is, is taken to be the latest one. *)

From Stdlib Require Import Ascii String DecimalString.
From stdpp Require Import base decidable option list strings gmap.

Local Open Scope string_scope.
Local Open Scope list_scope.
Local Open Scope nat_scope.

(** ** JavaScript values used by the components *)

Module JS.

(** Truthiness of a string ([''] is falsy). *)
Definition truthyStr (s : string) : bool :=
  match s with
  | EmptyString => false
  | String _ _ => true
  end.

(** Truthiness of an optional string ([undefined] and [''] are falsy). *)
Definition truthy (o : option string) : bool :=
  match o with
  | Some s => truthyStr s
  | None => false
  end.

(** [o || dflt] on an optional string. *)
Definition orElse (o : option string) (dflt : string) : string :=
  match o with
  | Some s => if truthyStr s then s else dflt
  | None => dflt
  end.

(** [n || dflt] on an optional number ([undefined] and [0] are falsy). *)
Definition numOrElse (o : option nat) (dflt : nat) : nat :=
  match o with
  | Some (S n) => S n
  | _ => dflt
  end.

(** [a === b] on values of type [string | null]. *)
Definition optStrEq (a b : option string) : bool :=
  match a, b with
  | Some x, Some y => String.eqb x y
  | None, None => true
  | _, _ => false
  end.

(** [`${n}`] for a count. *)
Definition numToString (n : nat) : string :=
  NilEmpty.string_of_uint (Nat.to_uint n).

(** The same for a literal of the source kept in binary (a page size). *)
Definition binToString (n : N) : string :=
  NilEmpty.string_of_uint (N.to_uint n).

(** WhiteSpace and LineTerminator code units in the modelled range:
    TAB, LF, VT, FF, CR, SP and NBSP. *)
Definition isWhiteSpace (c : ascii) : bool :=
  let n := nat_of_ascii c in
  ((9 <=? n) && (n <=? 13)) || (n =? 32) || (n =? 160).

Fixpoint trimStart (s : string) : string :=
  match s with
  | EmptyString => EmptyString
  | String c s' => if isWhiteSpace c then trimStart s' else s
  end.

Fixpoint trimEnd (s : string) : string :=
  match s with
  | EmptyString => EmptyString
  | String c s' =>
      match trimEnd s' with
      | EmptyString => if isWhiteSpace c then EmptyString else String c EmptyString
      | t => String c t
      end
  end.

(** [s.trim()] *)
Definition trim (s : string) : string := trimEnd (trimStart s).

(** Lower-casing of one code unit of the modelled range: A-Z, and the
    Latin-1 capitals U+00C0..U+00DE except the multiplication sign. *)
Definition lowerChar (c : ascii) : ascii :=
  let n := nat_of_ascii c in
  if ((65 <=? n) && (n <=? 90)) || ((192 <=? n) && (n <=? 222) && negb (n =? 215))
  then ascii_of_nat (n + 32)
  else c.

(** [s.toLowerCase()] *)
Fixpoint toLowerCase (s : string) : string :=
  match s with
  | EmptyString => EmptyString
  | String c s' => String (lowerChar c) (toLowerCase s')
  end.

Fixpoint startsWith (needle s : string) : bool :=
  match needle, s with
  | EmptyString, _ => true
  | String a n', String b s' => Ascii.eqb a b && startsWith n' s'
  | String _ _, EmptyString => false
  end.

(** [s.includes(needle)] *)
Fixpoint includes (needle s : string) : bool :=
  startsWith needle s ||
  match s with
  | EmptyString => false
  | String _ s' => includes needle s'
  end.

(** [s.slice(0, n)] for [n >= 0]. *)
Fixpoint sliceTo (n : nat) (s : string) : string :=
  match n, s with
  | S n', String c s' => String c (sliceTo n' s')
  | _, _ => EmptyString
  end.

(** [parts.join(sep)] *)
Fixpoint join (sep : string) (parts : list string) : string :=
  match parts with
  | [] => EmptyString
  | [p] => p
  | p :: rest => p +:+ sep +:+ join sep rest
  end.

Definition newline : ascii := ascii_of_nat 10.
Definition nl : string := String newline EmptyString.

(** [s.split('\n')]: the lines of a text. *)
Fixpoint lines (s : string) : list string :=
  match s with
  | EmptyString => [EmptyString]
  | String c s' =>
      if Ascii.eqb c newline then EmptyString :: lines s'
      else match lines s' with
           | [] => [String c EmptyString]
           | l :: ls => String c l :: ls
           end
  end.

(** A text that is empty or consists of white space only. *)
Fixpoint allWhiteSpace (s : string) : bool :=
  match s with
  | EmptyString => true
  | String c s' => isWhiteSpace c && allWhiteSpace s'
  end.

(** A text without a line break. *)
Fixpoint singleLine (s : string) : bool :=
  match s with
  | EmptyString => true
  | String c s' => negb (Ascii.eqb c newline) && singleLine s'
  end.

End JS.

(** ** Handlers as state transformers with an effect trace *)

Module Handler.

Definition M (S E A : Type) : Type := S -> A * S * list E.

Section Ops.
Context {S E : Type}.

Definition ret {A} (a : A) : M S E A := fun st => (a, st, []).

Definition bind {A B} (c : M S E A) (k : A -> M S E B) : M S E B :=
  fun st =>
    let '(a, st1, e1) := c st in
    let '(b, st2, e2) := k a st1 in
    (b, st2, e1 ++ e2).

Definition read {A} (f : S -> A) : M S E A := fun st => (f st, st, []).
Definition update (f : S -> S) : M S E unit := fun st => (tt, f st, []).
Definition emit (e : E) : M S E unit := fun st => (tt, st, [e]).
Definition when (b : bool) (c : M S E unit) : M S E unit :=
  if b then c else ret tt.

Definition valueOf {A} (r : A * S * list E) : A := r.1.1.
Definition stateOf {A} (r : A * S * list E) : S := r.1.2.
Definition effectsOf {A} (r : A * S * list E) : list E := r.2.
End Ops.

End Handler.

Import Handler.

Declare Scope handler_scope.
Delimit Scope handler_scope with handler.
Notation "x <- c ;; k" := (bind c (fun x => k))
  (at level 100, c at next level, right associativity) : handler_scope.
Notation "c ;; k" := (bind c (fun _ => k))
  (at level 100, right associativity) : handler_scope.
Local Open Scope handler_scope.

(** A toast handed to [addToast]. *)
Inductive ToastType := ToastInfo | ToastSuccess | ToastError.

Record Toast := {
  toast_type : ToastType;
  toast_title : string;
  toast_message : string;
  toast_duration : option nat
}.

(** ** AgentActivityLog: which log entries are expanded *)

Module AgentActivityLog.

(** [expandedLogs : Set<number>], a set of list indices; the component only
    ever asks it for membership ([expandedLogs.has(index)]). *)
Definition toggleLogExpansion (index : nat) (prev : gset nat) : gset nat :=
  if decide (index ∈ prev) then prev ∖ {[index]} else prev ∪ {[index]}.

Definition isExpanded (expandedLogs : gset nat) (index : nat) : bool :=
  bool_decide (index ∈ expandedLogs).

End AgentActivityLog.

(** ** NotesTab: paginated notes, live merge with the store, filter, export *)

Module NotesTab.

(** Modelled from the spec: the [Note] type is imported from the mission
    store, which is outside the visible sources. The spec's data model
    gives a note a unique identifier, textual content, an optional source
    label, an optional originating URL, a timestamp and optional tags. *)
Record Note := {
  note_id : string;
  content : string;
  source : option string;
  url : option string;
  timestamp : string;
  tags : option (list string)
}.

Global Instance Note_eq_dec : EqDecision Note.
Proof. solve_decision. Defined.

(** [activeMission], with the fields the component reads from the store. *)
Record Mission := {
  mission_id : string;
  mission_notes : option (list Note);
  mission_status : string
}.

Inductive Filter := All | Web | Documents.

(** [response.data] of [GET /api/missions/{id}/notes]: an object with the
    page, or a bare array. The handlers read [total] and [has_more]
    defensively, so both may be absent. *)
Inductive NotesData :=
| Page (pg_notes : list Note) (pg_total : option nat) (pg_has_more : option bool)
| BareArray (arr : list Note).

(** [data.notes || data] *)
Definition data_notes (data : NotesData) : list Note :=
  match data with
  | Page ns _ _ => ns
  | BareArray ns => ns
  end.

(** [data.total] *)
Definition data_total (data : NotesData) : option nat :=
  match data with
  | Page _ t _ => t
  | BareArray _ => None
  end.

(** [data.has_more] *)
Definition data_has_more (data : NotesData) : option bool :=
  match data with
  | Page _ _ h => h
  | BareArray _ => None
  end.

(** How the awaited request settles. *)
Inductive Settled :=
| Fulfilled (data : NotesData)
| Rejected.

(** The hooks of the component: [useState] values and [useRef] cells. *)
Record State := {
  notes : list Note;
  searchTerm : string;
  selectedFilter : Filter;
  isLoading : bool;
  isLoadingMore : bool;
  hasMoreNotes : bool;
  totalNotesCount : nat;
  newNotesCount : nat;
  (** [scrollContainerRef.current]: the [scrollTop] of the list, once mounted *)
  scrollContainer : option nat;
  lastScrollPosition : nat;
  initialLoadDone : bool;
  previousMissionId : option string
}.

Definition initialState : State := {|
  notes := [];
  searchTerm := "";
  selectedFilter := All;
  isLoading := false;
  isLoadingMore := false;
  hasMoreNotes := true;
  totalNotesCount := 0;
  newNotesCount := 0;
  scrollContainer := None;
  lastScrollPosition := 0;
  initialLoadDone := false;
  previousMissionId := None
|}.

Inductive TimerCallback :=
| CbAddToast (t : Toast)
| CbRestoreScrollPosition.

(** What a handler does to the collaborators of the component. *)
Inductive Effect :=
| ApiGet (path : string)
| SetMissionNotes (missionId : string) (ns : list Note)
| ConsoleError (msg : string)
| SetTimeout (cb : TimerCallback) (ms : nat)
| AddToast (t : Toast)
| DownloadBlob (filename mime text : string).

Definition M (A : Type) : Type := Handler.M State Effect A.

(** The setters. *)
Definition setNotes (v : list Note) : M unit :=
  update (fun s => {| notes := v; searchTerm := searchTerm s;
    selectedFilter := selectedFilter s; isLoading := isLoading s;
    isLoadingMore := isLoadingMore s; hasMoreNotes := hasMoreNotes s;
    totalNotesCount := totalNotesCount s; newNotesCount := newNotesCount s;
    scrollContainer := scrollContainer s; lastScrollPosition := lastScrollPosition s;
    initialLoadDone := initialLoadDone s; previousMissionId := previousMissionId s |}).

Definition setSearchTerm (v : string) : M unit :=
  update (fun s => {| notes := notes s; searchTerm := v;
    selectedFilter := selectedFilter s; isLoading := isLoading s;
    isLoadingMore := isLoadingMore s; hasMoreNotes := hasMoreNotes s;
    totalNotesCount := totalNotesCount s; newNotesCount := newNotesCount s;
    scrollContainer := scrollContainer s; lastScrollPosition := lastScrollPosition s;
    initialLoadDone := initialLoadDone s; previousMissionId := previousMissionId s |}).

Definition setSelectedFilter (v : Filter) : M unit :=
  update (fun s => {| notes := notes s; searchTerm := searchTerm s;
    selectedFilter := v; isLoading := isLoading s;
    isLoadingMore := isLoadingMore s; hasMoreNotes := hasMoreNotes s;
    totalNotesCount := totalNotesCount s; newNotesCount := newNotesCount s;
    scrollContainer := scrollContainer s; lastScrollPosition := lastScrollPosition s;
    initialLoadDone := initialLoadDone s; previousMissionId := previousMissionId s |}).

Definition setIsLoading (v : bool) : M unit :=
  update (fun s => {| notes := notes s; searchTerm := searchTerm s;
    selectedFilter := selectedFilter s; isLoading := v;
    isLoadingMore := isLoadingMore s; hasMoreNotes := hasMoreNotes s;
    totalNotesCount := totalNotesCount s; newNotesCount := newNotesCount s;
    scrollContainer := scrollContainer s; lastScrollPosition := lastScrollPosition s;
    initialLoadDone := initialLoadDone s; previousMissionId := previousMissionId s |}).

Definition setIsLoadingMore (v : bool) : M unit :=
  update (fun s => {| notes := notes s; searchTerm := searchTerm s;
    selectedFilter := selectedFilter s; isLoading := isLoading s;
    isLoadingMore := v; hasMoreNotes := hasMoreNotes s;
    totalNotesCount := totalNotesCount s; newNotesCount := newNotesCount s;
    scrollContainer := scrollContainer s; lastScrollPosition := lastScrollPosition s;
    initialLoadDone := initialLoadDone s; previousMissionId := previousMissionId s |}).

Definition setHasMoreNotes (v : bool) : M unit :=
  update (fun s => {| notes := notes s; searchTerm := searchTerm s;
    selectedFilter := selectedFilter s; isLoading := isLoading s;
    isLoadingMore := isLoadingMore s; hasMoreNotes := v;
    totalNotesCount := totalNotesCount s; newNotesCount := newNotesCount s;
    scrollContainer := scrollContainer s; lastScrollPosition := lastScrollPosition s;
    initialLoadDone := initialLoadDone s; previousMissionId := previousMissionId s |}).

Definition setTotalNotesCount (v : nat) : M unit :=
  update (fun s => {| notes := notes s; searchTerm := searchTerm s;
    selectedFilter := selectedFilter s; isLoading := isLoading s;
    isLoadingMore := isLoadingMore s; hasMoreNotes := hasMoreNotes s;
    totalNotesCount := v; newNotesCount := newNotesCount s;
    scrollContainer := scrollContainer s; lastScrollPosition := lastScrollPosition s;
    initialLoadDone := initialLoadDone s; previousMissionId := previousMissionId s |}).

Definition setNewNotesCount (v : nat) : M unit :=
  update (fun s => {| notes := notes s; searchTerm := searchTerm s;
    selectedFilter := selectedFilter s; isLoading := isLoading s;
    isLoadingMore := isLoadingMore s; hasMoreNotes := hasMoreNotes s;
    totalNotesCount := totalNotesCount s; newNotesCount := v;
    scrollContainer := scrollContainer s; lastScrollPosition := lastScrollPosition s;
    initialLoadDone := initialLoadDone s; previousMissionId := previousMissionId s |}).

Definition setScrollContainer (v : option nat) : M unit :=
  update (fun s => {| notes := notes s; searchTerm := searchTerm s;
    selectedFilter := selectedFilter s; isLoading := isLoading s;
    isLoadingMore := isLoadingMore s; hasMoreNotes := hasMoreNotes s;
    totalNotesCount := totalNotesCount s; newNotesCount := newNotesCount s;
    scrollContainer := v; lastScrollPosition := lastScrollPosition s;
    initialLoadDone := initialLoadDone s; previousMissionId := previousMissionId s |}).

Definition setLastScrollPosition (v : nat) : M unit :=
  update (fun s => {| notes := notes s; searchTerm := searchTerm s;
    selectedFilter := selectedFilter s; isLoading := isLoading s;
    isLoadingMore := isLoadingMore s; hasMoreNotes := hasMoreNotes s;
    totalNotesCount := totalNotesCount s; newNotesCount := newNotesCount s;
    scrollContainer := scrollContainer s; lastScrollPosition := v;
    initialLoadDone := initialLoadDone s; previousMissionId := previousMissionId s |}).

Definition setInitialLoadDone (v : bool) : M unit :=
  update (fun s => {| notes := notes s; searchTerm := searchTerm s;
    selectedFilter := selectedFilter s; isLoading := isLoading s;
    isLoadingMore := isLoadingMore s; hasMoreNotes := hasMoreNotes s;
    totalNotesCount := totalNotesCount s; newNotesCount := newNotesCount s;
    scrollContainer := scrollContainer s; lastScrollPosition := lastScrollPosition s;
    initialLoadDone := v; previousMissionId := previousMissionId s |}).

Definition setPreviousMissionId (v : option string) : M unit :=
  update (fun s => {| notes := notes s; searchTerm := searchTerm s;
    selectedFilter := selectedFilter s; isLoading := isLoading s;
    isLoadingMore := isLoadingMore s; hasMoreNotes := hasMoreNotes s;
    totalNotesCount := totalNotesCount s; newNotesCount := newNotesCount s;
    scrollContainer := scrollContainer s; lastScrollPosition := lastScrollPosition s;
    initialLoadDone := initialLoadDone s; previousMissionId := v |}).

(** *** Fetching *)

(** The path of [fetchNotesAPI(limit, offset)]. *)
Definition notesPath (missionId : string) (limit : N) (offset : nat) : string :=
  "/api/missions/" +:+ missionId +:+ "/notes?limit=" +:+ JS.binToString limit
    +:+ "&offset=" +:+ JS.numToString offset.

Definition fetchNotesAPI (missionId : string) (limit : N) (offset : nat) : M unit :=
  emit (ApiGet (notesPath missionId limit offset)).

(** [loadInitialNotes] up to its [await]; answers whether a request is
    now in flight. *)
Definition loadInitialNotes_request (missionId : string) : M bool :=
  prev <- read previousMissionId ;;
  when (negb (JS.optStrEq prev (Some missionId)))
    (setInitialLoadDone false ;;
     setPreviousMissionId (Some missionId) ;;
     setNotes [] ;;
     setTotalNotesCount 0 ;;
     setNewNotesCount 0) ;;
  done <- read initialLoadDone ;;
  if done : bool then ret false
  else (setIsLoading true ;;
        fetchNotesAPI missionId 100%N 0 ;;
        ret true).

(** [loadInitialNotes] from the point where the request has settled: the
    rest of the [try], or the [catch], then the [finally]. *)
Definition loadInitialNotes_settled (missionId : string) (r : Settled) : M unit :=
  match r with
  | Fulfilled data =>
      let newNotes := data_notes data in
      let total := JS.numOrElse (data_total data) (length newNotes) in
      let hasMore := match data_has_more data with
                     | Some h => h
                     | None => 100 <? total
                     end in
      setNotes newNotes ;;
      emit (SetMissionNotes missionId newNotes) ;;
      setTotalNotesCount total ;;
      setHasMoreNotes hasMore ;;
      setInitialLoadDone true
  | Rejected => emit (ConsoleError "Failed to fetch initial notes:")
  end ;;
  setIsLoading false.

Definition loadInitialNotes (missionId : string) (r : Settled) : M unit :=
  started <- loadInitialNotes_request missionId ;;
  if started : bool then loadInitialNotes_settled missionId r else ret tt.

(** [loadMoreNotes] up to its [await]; answers the [currentLength] its
    continuation has captured when a request is in flight. *)
Definition loadMoreNotes_request (missionId : string) : M (option nat) :=
  hasMore <- read hasMoreNotes ;;
  busy <- read isLoadingMore ;;
  if negb hasMore || busy then ret None
  else (setIsLoadingMore true ;;
        currentLength <- read (fun s => length (notes s)) ;;
        fetchNotesAPI missionId 100%N currentLength ;;
        ret (Some currentLength)).

Definition loadMoreNotes_settled (missionId : string) (currentLength : nat)
    (r : Settled) : M unit :=
  match r with
  | Fulfilled data =>
      let newNotes := data_notes data in
      let total := JS.numOrElse (data_total data) (currentLength + length newNotes) in
      let hasMore := match data_has_more data with
                     | Some h => h
                     | None => currentLength + length newNotes <? total
                     end in
      prev <- read notes ;;
      let updated := prev ++ newNotes in
      emit (SetMissionNotes missionId updated) ;;
      setNotes updated ;;
      setTotalNotesCount total ;;
      setHasMoreNotes hasMore
  | Rejected => emit (ConsoleError "Failed to load more notes:")
  end ;;
  setIsLoadingMore false.

Definition loadMoreNotes (missionId : string) (r : Settled) : M unit :=
  started <- loadMoreNotes_request missionId ;;
  match started with
  | Some currentLength => loadMoreNotes_settled missionId currentLength r
  | None => ret tt
  end.

(** [loadAllNotes] up to its [await]. *)
Definition loadAllNotes_request (missionId : string) : M bool :=
  hasMore <- read hasMoreNotes ;;
  if negb hasMore then ret false
  else (setIsLoading true ;;
        fetchNotesAPI missionId 999999%N 0 ;;
        ret true).

Definition loadAllNotes_settled (missionId : string) (r : Settled) : M unit :=
  match r with
  | Fulfilled data =>
      let allNotes := data_notes data in
      let total := JS.numOrElse (data_total data) (length allNotes) in
      setNotes allNotes ;;
      emit (SetMissionNotes missionId allNotes) ;;
      setTotalNotesCount total ;;
      setHasMoreNotes false
  | Rejected => emit (ConsoleError "Failed to load all notes:")
  end ;;
  setIsLoading false.

Definition loadAllNotes (missionId : string) (r : Settled) : M unit :=
  started <- loadAllNotes_request missionId ;;
  if started : bool then loadAllNotes_settled missionId r else ret tt.

(** The "Load More" and "Load All" buttons: rendered only inside the load
    controls, and [disabled] by their busy flag or by [!hasMoreNotes]. *)
Definition loadControlsShown (s : State) : bool :=
  hasMoreNotes s || (length (notes s) <? totalNotesCount s).

Definition loadMoreDisabled (s : State) : bool :=
  isLoadingMore s || negb (hasMoreNotes s).

Definition loadAllDisabled (s : State) : bool :=
  isLoading s || negb (hasMoreNotes s).

Definition clickLoadMore (missionId : string) : M (option nat) :=
  shown <- read loadControlsShown ;;
  disabled <- read loadMoreDisabled ;;
  if shown && negb disabled then loadMoreNotes_request missionId else ret None.

Definition clickLoadAll (missionId : string) : M bool :=
  shown <- read loadControlsShown ;;
  disabled <- read loadAllDisabled ;;
  if shown && negb disabled then loadAllNotes_request missionId else ret false.

(** *** Reconciliation with the store *)

Definition preserveScrollPosition : M unit :=
  c <- read scrollContainer ;;
  match c with
  | Some scrollTop => setLastScrollPosition scrollTop
  | None => ret tt
  end.

Definition restoreScrollPosition : M unit :=
  c <- read scrollContainer ;;
  match c with
  | Some _ => (last <- read lastScrollPosition ;; setScrollContainer (Some last))
  | None => ret tt
  end.

(** [ns.length > 0 ? ns[ns.length - 1].note_id : null] *)
Definition lastNoteId (ns : list Note) : option string :=
  note_id <$> last ns.

Definition newNotesToast (newNotesCount : nat) : Toast := {|
  toast_type := ToastInfo;
  toast_title := "New Research Notes";
  toast_message := JS.numToString newNotesCount +:+ " new note"
                     +:+ (if 1 <? newNotesCount then "s" else "") +:+ " added";
  toast_duration := None
|}.

Definition notificationThreshold : nat := 5.

(** The effect that listens to the store (the second [useEffect]). *)
Definition storeSyncEffect (activeMission : option Mission) (missionId : string)
    : M unit :=
  match activeMission with
  | Some am =>
      match mission_notes am with
      | Some storeNotes =>
          done <- read initialLoadDone ;;
          if String.eqb (mission_id am) missionId && done then
            (prev <- read previousMissionId ;;
             ns <- read notes ;;
             if JS.optStrEq prev (Some missionId) then
               let currentLastNoteId := lastNoteId ns in
               let storeLastNoteId := lastNoteId storeNotes in
               if negb (length storeNotes =? length ns)
                  || negb (JS.optStrEq currentLastNoteId storeLastNoteId)
               then
                 (preserveScrollPosition ;;
                  let newNotesCount :=
                    Z.to_nat (Z.max 0 (Z.of_nat (length storeNotes) - Z.of_nat (length ns))) in
                  when (notificationThreshold <=? newNotesCount)
                    (emit (SetTimeout (CbAddToast (newNotesToast newNotesCount)) 500)) ;;
                  setNotes storeNotes ;;
                  setTotalNotesCount (length storeNotes) ;;
                  emit (SetTimeout CbRestoreScrollPosition 50))
               else ret tt
             else
               when (0 <? length storeNotes)
                 (setNotes storeNotes ;;
                  setTotalNotesCount (length storeNotes)))
          else ret tt
      | None => ret tt
      end
  | None => ret tt
  end.

(** The effect that seeds the list from the store before the first load
    (the third [useEffect]). *)
Definition initialStoreSyncEffect (activeMission : option Mission)
    (missionId : string) : M unit :=
  match activeMission with
  | Some am =>
      match mission_notes am with
      | Some storeNotes =>
          done <- read initialLoadDone ;;
          when (String.eqb (mission_id am) missionId && negb done
                && (0 <? length storeNotes))
            (setNotes storeNotes ;;
             setTotalNotesCount (length storeNotes))
      | None => ret tt
      end
  | None => ret tt
  end.

(** A timer callback, when it fires. *)
Definition runTimer (cb : TimerCallback) : M unit :=
  match cb with
  | CbAddToast t => emit (AddToast t)
  | CbRestoreScrollPosition => restoreScrollPosition
  end.

Definition handleScroll : M unit :=
  n <- read newNotesCount ;;
  when (0 <? n) (setNewNotesCount 0).

(** The toasts a trace produces, at once or through a timer. *)
Definition toastsOf (es : list Effect) : list Toast :=
  omap (fun e => match e with
                 | AddToast t => Some t
                 | SetTimeout (CbAddToast t) _ => Some t
                 | _ => None
                 end) es.

(** The toasts a trace hands to [addToast]. *)
Definition addedToasts (es : list Effect) : list Toast :=
  omap (fun e => match e with AddToast t => Some t | _ => None end) es.

(** The timers a trace sets, with their delays, in the order of setting. *)
Definition timersOf (es : list Effect) : list (nat * TimerCallback) :=
  omap (fun e => match e with SetTimeout cb ms => Some (ms, cb) | _ => None end) es.

(** A timer queued behind the timers that are due no later than it. *)
Fixpoint queueTimer (t : nat * TimerCallback) (queue : list (nat * TimerCallback))
    : list (nat * TimerCallback) :=
  match queue with
  | [] => [t]
  | u :: rest => if fst t <? fst u then t :: queue else u :: queueTimer t rest
  end.

(** The callbacks of the timers a trace sets, in the order in which they
    fire: by delay, and by order of setting among equal delays. *)
Definition pendingTimers (es : list Effect) : list TimerCallback :=
  snd <$> foldl (fun queue t => queueTimer t queue) [] (timersOf es).

(** The callbacks fire one after the other. *)
Fixpoint fireTimers (cbs : list TimerCallback) : M unit :=
  match cbs with
  | [] => ret tt
  | cb :: rest => runTimer cb ;; fireTimers rest
  end.

(** The toasts shown once the timers that a handler's run has set have
    fired: those handed to [addToast] in the run and by the callbacks. *)
Definition toastsShown {A} (r : A * State * list Effect) : list Toast :=
  addedToasts (effectsOf r)
  ++ addedToasts (effectsOf (fireTimers (pendingTimers (effectsOf r)) (stateOf r))).

(** The requests a trace sends. *)
Definition requestsOf (es : list Effect) : list string :=
  omap (fun e => match e with ApiGet p => Some p | _ => None end) es.

(** *** Filter and search *)

Definition filterEq (a b : Filter) : bool :=
  match a, b with
  | All, All | Web, Web | Documents, Documents => true
  | _, _ => false
  end.

Definition matchesSearch (searchTerm : string) (note : Note) : bool :=
  String.eqb searchTerm ""
  || JS.includes (JS.toLowerCase searchTerm) (JS.toLowerCase (content note))
  || match source note with
     | Some s => JS.truthyStr s
                 && JS.includes (JS.toLowerCase searchTerm) (JS.toLowerCase s)
     | None => false
     end
  || match url note with
     | Some u => JS.truthyStr u
                 && JS.includes (JS.toLowerCase searchTerm) (JS.toLowerCase u)
     | None => false
     end.

Definition matchesFilter (selectedFilter : Filter) (note : Note) : bool :=
  filterEq selectedFilter All
  || (filterEq selectedFilter Web && JS.truthy (url note))
  || (filterEq selectedFilter Documents && JS.truthy (source note)
      && negb (JS.truthy (url note))).

Definition filterNotes (searchTerm : string) (selectedFilter : Filter)
    (ns : list Note) : list Note :=
  List.filter (fun note => matchesSearch searchTerm note
                           && matchesFilter selectedFilter note) ns.

Definition filteredNotes (s : State) : list Note :=
  filterNotes (searchTerm s) (selectedFilter s) (notes s).

Definition getFilterCount (filter : Filter) (s : State) : nat :=
  match filter with
  | All => match totalNotesCount s with
           | 0 => length (notes s)
           | n => n
           end
  | Web => length (List.filter (fun note => JS.truthy (url note)) (notes s))
  | Documents =>
      length (List.filter (fun note => JS.truthy (source note)
                                       && negb (JS.truthy (url note))) (notes s))
  end.

(** *** Export *)

Definition entryDelimiter : string := "---".

(** The entries a text holds when it is read back: its lines that are the
    delimiter. *)
Definition delimitedEntries (text : string) : nat :=
  length (List.filter (String.eqb entryDelimiter) (JS.lines text)).

Definition exportFileName (missionId : string) : string :=
  "mission-notes-" +:+ JS.sliceTo 8 missionId +:+ ".txt".

Definition exportedToast : Toast := {|
  toast_type := ToastSuccess;
  toast_title := "Notes Exported";
  toast_message := "Research notes have been exported successfully.";
  toast_duration := None
|}.

Section ExportNotes.

(** [formatFullDateTime] of utils/timezone, outside the visible sources. *)
Variable formatFullDateTime : string -> string.

(** The first line of an entry: [[${...}] (${sourceInfo})]. *)
Definition entryHeader (note : Note) : string :=
  let sourceInfo := JS.orElse (source note) "Unknown source" in
  "[" +:+ formatFullDateTime (timestamp note) +:+ "] (" +:+ sourceInfo +:+ ")".

(** Its third part: [${urlInfo ? `URL: ${urlInfo}` : ''}]. *)
Definition entryUrlLine (note : Note) : string :=
  let urlInfo := JS.orElse (url note) "" in
  if JS.truthyStr urlInfo then "URL: " +:+ urlInfo else "".

(** What precedes the delimiter in an entry. *)
Definition entryBody (note : Note) : string :=
  entryHeader note +:+ JS.nl +:+ content note +:+ JS.nl +:+ entryUrlLine note.

Definition exportEntry (note : Note) : string :=
  entryBody note +:+ JS.nl +:+ entryDelimiter +:+ JS.nl.

Definition notesText (filtered : list Note) : string :=
  JS.join JS.nl (map exportEntry filtered).

Definition handleExportNotes (missionId : string) : M unit :=
  filtered <- read filteredNotes ;;
  emit (DownloadBlob (exportFileName missionId) "text/plain" (notesText filtered)) ;;
  emit (AddToast exportedToast).

(** The export button is [disabled] when nothing matches. *)
Definition clickExport (missionId : string) : M unit :=
  filtered <- read filteredNotes ;;
  if length filtered =? 0 then ret tt else handleExportNotes missionId.

End ExportNotes.

(** The downloads a trace offers: file name and text. *)
Definition downloadsOf (es : list Effect) : list (string * string) :=
  omap (fun e => match e with
                 | DownloadBlob name _ text => Some (name, text)
                 | _ => None
                 end) es.

(** *** The life of the tab on one mission *)

(** What can happen to the tab while it shows one mission: its handlers
    and effects, and the two halves of its requests. *)
Inductive TabEvent :=
| EvLoadInitial (r : Settled)
| EvLoadInitialRequest
| EvLoadInitialSettled (r : Settled)
| EvLoadMore (r : Settled)
| EvLoadMoreRequest
| EvLoadMoreSettled (currentLength : nat) (r : Settled)
| EvLoadAll (r : Settled)
| EvLoadAllRequest
| EvLoadAllSettled (r : Settled)
| EvClickLoadMore
| EvClickLoadAll
| EvStoreSync (activeMission : option Mission)
| EvInitialStoreSync (activeMission : option Mission)
| EvTimer (cb : TimerCallback)
| EvScroll
| EvScrolledTo (scrollTop : nat)
| EvSearch (term : string)
| EvFilter (filter : Filter)
| EvExport (formatFullDateTime : string -> string).

Definition forget {A} (c : M A) : M unit := _ <- c ;; ret tt.

Definition handleEvent (missionId : string) (ev : TabEvent) : M unit :=
  match ev with
  | EvLoadInitial r => loadInitialNotes missionId r
  | EvLoadInitialRequest => forget (loadInitialNotes_request missionId)
  | EvLoadInitialSettled r => loadInitialNotes_settled missionId r
  | EvLoadMore r => loadMoreNotes missionId r
  | EvLoadMoreRequest => forget (loadMoreNotes_request missionId)
  | EvLoadMoreSettled n r => loadMoreNotes_settled missionId n r
  | EvLoadAll r => loadAllNotes missionId r
  | EvLoadAllRequest => forget (loadAllNotes_request missionId)
  | EvLoadAllSettled r => loadAllNotes_settled missionId r
  | EvClickLoadMore => forget (clickLoadMore missionId)
  | EvClickLoadAll => forget (clickLoadAll missionId)
  | EvStoreSync am => storeSyncEffect am missionId
  | EvInitialStoreSync am => initialStoreSyncEffect am missionId
  | EvTimer cb => runTimer cb
  | EvScroll => handleScroll
  | EvScrolledTo top => setScrollContainer (Some top)
  | EvSearch t => setSearchTerm t
  | EvFilter f => setSelectedFilter f
  | EvExport fmt => clickExport fmt missionId
  end.

(** The state after a run of events, in their order. *)
Definition afterEvents (missionId : string) (evs : list TabEvent) (st : State) : State :=
  foldl (fun s ev => stateOf (handleEvent missionId ev s)) st evs.

(** *** What the properties observe *)

(** The delimiter lines inside the entries' own text. *)
Definition strayDelimiters (fmt : string -> string) (ns : list Note) : nat :=
  sum_list (map (fun note => delimitedEntries (entryBody fmt note)) ns).

(** A note whose own text cannot be taken for a delimiter: the content has
    no line [---], and the formatted timestamp, the source and the URL have
    no line break. *)
Definition wellSeparated (fmt : string -> string) (note : Note) : bool :=
  (delimitedEntries (content note) =? 0)
  && JS.singleLine (fmt (timestamp note))
  && JS.singleLine (JS.orElse (source note) "")
  && JS.singleLine (JS.orElse (url note) "").

(** What the notes tab shows of its list: the notes, the total and the
    has-more flag. *)
Definition displayed (st : State) : list Note * nat * bool :=
  (notes st, totalNotesCount st, hasMoreNotes st).

End NotesTab.

(** ** WritingChatPanel: sending, regenerating and deleting chat messages *)

Module WritingChatPanel.

(** [searchSettings], the single source of truth of the search controls. *)
Record SearchSettings := {
  useWebSearch : bool;
  deepSearch : bool;
  maxIterations : nat;
  maxQueries : nat;
  deepSearchIterations : nat;
  deepSearchQueries : nat
}.

(** [userSettings?.research_parameters], with its four optional limits. *)
Record ResearchParameters := {
  writing_search_max_iterations : option nat;
  writing_search_max_queries : option nat;
  writing_deep_search_iterations : option nat;
  writing_deep_search_queries : option nat
}.

(** [userParams?.field ?? dflt] *)
Definition paramOr (userParams : option ResearchParameters)
    (field : ResearchParameters -> option nat) (dflt : nat) : nat :=
  default dflt (userParams ≫= field).

Definition defaultSearchSettings (userParams : option ResearchParameters)
    : SearchSettings := {|
  useWebSearch := false;
  deepSearch := false;
  maxIterations := paramOr userParams writing_search_max_iterations 1;
  maxQueries := paramOr userParams writing_search_max_queries 3;
  deepSearchIterations := paramOr userParams writing_deep_search_iterations 3;
  deepSearchQueries := paramOr userParams writing_deep_search_queries 5
|}.

(** The options object handed to [sendMessage] and [regenerateMessage]. *)
Record ToolOptions := {
  opt_documentGroupId : option string;
  opt_useWebSearch : bool;
  opt_deepSearch : bool;
  opt_maxIterations : nat;
  opt_maxQueries : nat
}.

(** What the panel reads from the writing store on a render. *)
Record StoreView := {
  currentSession : option string;
  activeChat : option string;
  getSessionLoading : string -> bool;
  agentStatus : option string
}.

Definition sessionLoading (v : StoreView) : bool :=
  match currentSession v with
  | Some sid => getSessionLoading v sid
  | None =>
      match activeChat v with
      | Some cid => getSessionLoading v cid
      | None => false
      end
      || getSessionLoading v "session_creating"
  end.

Definition agentWorking (v : StoreView) : bool :=
  match agentStatus v with
  | Some st =>
      JS.truthyStr st && negb (String.eqb st "")
      && negb (existsb (String.eqb st) ["idle"; "complete"; "error"])
  | None => false
  end.

Definition isLoading (v : StoreView) : bool :=
  sessionLoading v || agentWorking v.

Record State := {
  message : string;
  selectedGroupId : option string;
  searchSettings : SearchSettings
}.

Inductive Effect :=
| SendMessage (text : string) (options : ToolOptions)
| RegenerateMessage (messageId : string) (options : ToolOptions)
| RemoveMessage (messageId : string)
| ConsoleError (msg : string)
| AddToast (t : Toast).

(** How an awaited store action settles. *)
Inductive Settled := Fulfilled | Rejected.

Definition M (A : Type) : Type := Handler.M State Effect A.

Definition setMessage (v : string) : M unit :=
  update (fun s => {| message := v; selectedGroupId := selectedGroupId s;
                      searchSettings := searchSettings s |}).

(** The options literal, written out twice in the source. *)
Definition toolOptions (s : State) : ToolOptions :=
  let st := searchSettings s in {|
    opt_documentGroupId := selectedGroupId s;
    opt_useWebSearch := useWebSearch st;
    opt_deepSearch := deepSearch st;
    opt_maxIterations := if deepSearch st then deepSearchIterations st
                         else maxIterations st;
    opt_maxQueries := if deepSearch st then deepSearchQueries st
                      else maxQueries st
  |}.

Definition errorToast (title msg : string) : Toast := {|
  toast_type := ToastError;
  toast_title := title;
  toast_message := msg;
  toast_duration := Some 5000
|}.

(** [handleSendMessage] up to its [await]; answers whether [sendMessage]
    is now in flight. *)
Definition handleSendMessage_request (v : StoreView) : M bool :=
  msg <- read message ;;
  if negb (JS.truthyStr (JS.trim msg)) || isLoading v then ret false
  else
    (let userMessage := JS.trim msg in
     setMessage "" ;;
     opts <- read toolOptions ;;
     emit (SendMessage userMessage opts) ;;
     ret true).

Definition handleSendMessage_settled (r : Settled) : M unit :=
  match r with
  | Fulfilled => ret tt
  | Rejected =>
      emit (ConsoleError "Error sending writing message:") ;;
      emit (AddToast (errorToast "Chat Error"
                        "Failed to send message. Please try again."))
  end.

Definition handleSendMessage (v : StoreView) (r : Settled) : M unit :=
  started <- handleSendMessage_request v ;;
  if started : bool then handleSendMessage_settled r else ret tt.

Definition handleRegenerate_request (messageId : string) : M unit :=
  opts <- read toolOptions ;;
  emit (RegenerateMessage messageId opts).

Definition handleRegenerate_settled (r : Settled) : M unit :=
  match r with
  | Fulfilled => ret tt
  | Rejected =>
      emit (ConsoleError "Error regenerating message:") ;;
      emit (AddToast (errorToast "Regeneration Error"
                        "Failed to regenerate response. Please try again."))
  end.

Definition handleRegenerate (messageId : string) (r : Settled) : M unit :=
  handleRegenerate_request messageId ;;
  handleRegenerate_settled r.

(** The [onDelete] callback of a message bubble. *)
Definition onDelete_request (messageId : string) : M unit :=
  emit (RemoveMessage messageId).

Definition onDelete_settled (r : Settled) : M unit :=
  match r with
  | Fulfilled => ret tt
  | Rejected =>
      emit (ConsoleError "Failed to delete message:") ;;
      emit (AddToast (errorToast "Delete Failed"
                        "Failed to delete message. Please try again."))
  end.

Definition onDelete (messageId : string) (r : Settled) : M unit :=
  onDelete_request messageId ;;
  onDelete_settled r.

Definition toastsOf (es : list Effect) : list Toast :=
  omap (fun e => match e with AddToast t => Some t | _ => None end) es.

(** The iteration and query limits that an effect hands to the store. *)
Definition limitsPassed (e : Effect) : option (nat * nat) :=
  match e with
  | SendMessage _ o | RegenerateMessage _ o =>
      Some (opt_maxIterations o, opt_maxQueries o)
  | _ => None
  end.


End WritingChatPanel.

(** ** Notes, missions and states used as concrete inputs *)

Module NotesFixtures.
Import NotesTab.

Definition note1 : Note := {|
  note_id := "n1"; content := "first finding"; source := Some "report.pdf";
  url := None; timestamp := "2025-01-01T10:00:00Z"; tags := None
|}.

Definition note2 : Note := {|
  note_id := "n2"; content := "second finding"; source := None;
  url := Some "https://example.org/a"; timestamp := "2025-01-01T10:05:00Z";
  tags := Some ["web"]
|}.

(** A note whose content has a horizontal rule of its own. *)
Definition ruledNote : Note := {|
  note_id := "n3";
  content := "before" +:+ JS.nl +:+ "---" +:+ JS.nl +:+ "after";
  source := Some "report.pdf"; url := None;
  timestamp := "2025-01-01T10:10:00Z"; tags := None
|}.

Definition noteA : Note := {|
  note_id := "a"; content := "alpha"; source := None;
  url := Some "https://example.org"; timestamp := "t1"; tags := None
|}.

Definition noteB : Note := {|
  note_id := "b"; content := "beta"; source := Some "paper.pdf";
  url := None; timestamp := "t2"; tags := None
|}.

(** The state while the first request of a mission is in flight. *)
Definition firstLoadInFlight : State :=
  stateOf (loadInitialNotes_request "m1" initialState).

(** The state while a next page is in flight. *)
Definition nextPageInFlight : State :=
  stateOf (loadMoreNotes_request "m1" initialState).

(** The state after everything has been loaded. *)
Definition everythingLoaded : State :=
  stateOf (loadAllNotes "m1" (Fulfilled (BareArray [])) initialState).

(** The state after the first load of mission m1 brought its one note. *)
Definition oneNoteLoaded : State :=
  stateOf (loadInitialNotes "m1" (Fulfilled (Page [note1] (Some 1) (Some false)))
             initialState).

(** The state after the first page of mission m1 brought one note and
    told of more. *)
Definition morePagesLeft : State :=
  stateOf (loadInitialNotes "m1" (Fulfilled (Page [note1] (Some 3) (Some true)))
             initialState).

(** The [i]-th note of a push update. *)
Definition pushedNote (i : nat) : Note := {|
  note_id := "p" +:+ JS.numToString i; content := "pushed finding"; source := None;
  url := None; timestamp := "2025-01-01T11:00:00Z"; tags := None
|}.

(** The store of mission m1 after a push update brought [n] more notes. *)
Definition pushed (n : nat) : Mission := {|
  mission_id := "m1";
  mission_notes := Some (note1 :: map pushedNote (seq 1 n));
  mission_status := "running"
|}.

(** The state after mission m1 has been loaded and then mission m2. *)
Definition afterOtherMission : State :=
  stateOf (loadInitialNotes "m2" (Fulfilled (BareArray [note2]))
             (stateOf (loadInitialNotes "m1" (Fulfilled (BareArray [note1]))
                         initialState))).

(** The state after a first load that brought the notes [ns]. *)
Definition showing (ns : list Note) : State :=
  stateOf (loadInitialNotes "0123456789abcdef" (Fulfilled (BareArray ns)) initialState).

End NotesFixtures.

Module ChatFixtures.
Import WritingChatPanel.

(** A store with a chat open and nothing loading. *)
Definition idleStore : StoreView := {|
  currentSession := None;
  activeChat := Some "chat-1";
  getSessionLoading := fun _ => false;
  agentStatus := Some "idle"
|}.

(** The panel with [text] typed in, deep search on or off. *)
Definition typed (text : string) (deep : bool) : State := {|
  message := text;
  selectedGroupId := None;
  searchSettings := {|
    useWebSearch := true; deepSearch := deep;
    maxIterations := 1; maxQueries := 3;
    deepSearchIterations := 3; deepSearchQueries := 5 |}
|}.

End ChatFixtures.

(** ** AgentActivityLog: what is rendered *)

Module AgentActivityLogView.
Import AgentActivityLog.

Inductive LogStatus := StatusSuccess | StatusFailure | StatusWarning | StatusRunning.

(** [ExecutionLogEntry], with the fields the component itself reads or
    passes on as they are. *)
Record ExecutionLogEntry := {
  log_id : option string;
  timestamp : string;
  agent_name : string;
  action : string;
  status : LogStatus
}.

(** The props of the component; [onLoadMore] and [onLoadAll] say whether
    the callback was given. *)
Record Props := {
  logs : list ExecutionLogEntry;
  isLoading : bool;
  missionStatus : option string;
  hasMore : bool;
  onLoadMore : bool;
  onLoadAll : bool;
  isLoadingMore : bool;
  totalLogs : nat
}.

Inductive LogRenderer :=
| ResearchAgentLog
| PlanningAgentLog
| WritingAgentLog
| ReflectionAgentLog
| DefaultLogRenderer.

(** The choice of renderer in [renderLogEntry]. *)
Definition logRenderer (log : ExecutionLogEntry) : LogRenderer :=
  let agentName := JS.toLowerCase (agent_name log) in
  if JS.includes "research" agentName then ResearchAgentLog
  else if JS.includes "planning" agentName then PlanningAgentLog
  else if JS.includes "writing" agentName then WritingAgentLog
  else if JS.includes "reflection" agentName then ReflectionAgentLog
  else DefaultLogRenderer.

(** A rendered [LogEntryCard]; its [onToggleExpansion] toggles [card_key]. *)
Record LogEntryCard := {
  card_key : nat;
  card_log : ExecutionLogEntry;
  card_isExpanded : bool;
  card_renderer : LogRenderer
}.

Definition renderLogEntry (expandedLogs : gset nat) (log : ExecutionLogEntry)
    (index : nat) : LogEntryCard := {|
  card_key := index;
  card_log := log;
  card_isExpanded := isExpanded expandedLogs index;
  card_renderer := logRenderer log
|}.

(** [logs.map((log, index) => renderLogEntry(log, index))] *)
Definition renderLogs (expandedLogs : gset nat) (p : Props) : list LogEntryCard :=
  imap (fun index log => renderLogEntry expandedLogs log index) (logs p).

(** The load controls: whether they are rendered, and whether their
    Load More button is disabled. *)
Definition loadControlsShown (p : Props) : bool :=
  (hasMore p || ((0 <? totalLogs p) && (length (logs p) <? totalLogs p)))
  && onLoadMore p.

Definition loadMoreDisabled (p : Props) : bool :=
  isLoadingMore p || (negb (hasMore p) && (totalLogs p <=? length (logs p))).

(** The two placeholders of the list. *)
Definition loadingPlaceholderShown (p : Props) : bool :=
  isLoading p && (length (logs p) =? 0).

Definition emptyPlaceholderShown (p : Props) : bool :=
  negb (isLoading p) && (length (logs p) =? 0).

(** The set of expanded entries after the cards with the given keys have
    been clicked, in that order. *)
Definition afterToggles (clicks : list nat) (expandedLogs : gset nat) : gset nat :=
  foldl (fun s index => toggleLogExpansion index s) expandedLogs clicks.

(** The props with other log entries. *)
Definition withLogs (p : Props) (ls : list ExecutionLogEntry) : Props := {|
  logs := ls;
  isLoading := isLoading p;
  missionStatus := missionStatus p;
  hasMore := hasMore p;
  onLoadMore := onLoadMore p;
  onLoadAll := onLoadAll p;
  isLoadingMore := isLoadingMore p;
  totalLogs := totalLogs p
|}.

(** A log entry with its agent name in lower case. *)
Definition lowered (log : ExecutionLogEntry) : ExecutionLogEntry := {|
  log_id := log_id log;
  timestamp := timestamp log;
  agent_name := JS.toLowerCase (agent_name log);
  action := action log;
  status := status log
|}.

(** Two entries shown of five, nothing loading. *)
Definition twoOfFive : Props := {|
  logs := [ {| log_id := Some "l1"; timestamp := "t1"; agent_name := "ResearchAgent";
               action := "search"; status := StatusSuccess |};
            {| log_id := Some "l2"; timestamp := "t2"; agent_name := "WritingAgent";
               action := "draft"; status := StatusRunning |} ];
  isLoading := false;
  missionStatus := Some "running";
  hasMore := false;
  onLoadMore := true;
  onLoadAll := true;
  isLoadingMore := false;
  totalLogs := 5
|}.

(** An entry older than those of [twoOfFive]. *)
Definition earlierEntry : ExecutionLogEntry := {|
  log_id := Some "l0"; timestamp := "t0"; agent_name := "PlanningAgent";
  action := "plan"; status := StatusSuccess
|}.

End AgentActivityLogView.

(** ** NotesTab: the badge of a note *)

Module NotesTabView.
Import NotesTab.

Inductive Badge := BadgeWeb | BadgeDoc | BadgeInt.

(** [note.url ? 'Web' : note.source ? 'Doc' : 'Int'] *)
Definition badge (note : Note) : Badge :=
  if JS.truthy (url note) then BadgeWeb
  else if JS.truthy (source note) then BadgeDoc
  else BadgeInt.

Definition badgeEq (a b : Badge) : bool :=
  match a, b with
  | BadgeWeb, BadgeWeb | BadgeDoc, BadgeDoc | BadgeInt, BadgeInt => true
  | _, _ => false
  end.

(** The notes that carry a given badge. *)
Definition countBadge (b : Badge) (ns : list Note) : nat :=
  length (List.filter (fun note => badgeEq (badge note) b) ns).

(** Successive pages as [loadMoreNotes] is answered them, each response
    saying that more is to come. *)
Definition loadPages (missionId : string) (total : nat) (pages : list (list Note))
    (st : State) : State * list Effect :=
  foldl (fun acc page =>
           let r := loadMoreNotes missionId
                      (Fulfilled (Page page (Some total) (Some true))) acc.1 in
           (stateOf r, acc.2 ++ effectsOf r))
        (st, []) pages.

(** The offsets at which the pages are asked for, from a list of [held]
    notes on. *)
Fixpoint pageOffsets (held : nat) (pages : list (list Note)) : list nat :=
  match pages with
  | [] => []
  | page :: rest => held :: pageOffsets (held + length page) rest
  end.

(** The last list a trace has written to the store. *)
Definition lastStoreWrite (es : list Effect) : option (string * list Note) :=
  last (omap (fun e => match e with
                       | SetMissionNotes m ns => Some (m, ns)
                       | _ => None
                       end) es).

(** The state after a run of events, each with the mission the tab is on
    when it happens. *)
Definition afterTabEvents (evs : list (string * TabEvent)) (st : State) : State :=
  foldl (fun s mev => stateOf (handleEvent mev.1 mev.2 s)) st evs.

(** A note of the store edited in place: same id, other content. *)
Definition edited (note : Note) : Note := {|
  note_id := note_id note;
  content := content note +:+ " (revised)";
  source := source note;
  url := url note;
  timestamp := timestamp note;
  tags := tags note
|}.

(** A mission of the store with the given notes. *)
Definition storeMission (missionId : string) (ns : list Note) : Mission := {|
  mission_id := missionId;
  mission_notes := Some ns;
  mission_status := "running"
|}.

(** A state with the list scrolled to [top]. *)
Definition scrolledTo (top : nat) (st : State) : State :=
  stateOf (setScrollContainer (Some top) st).

End NotesTabView.

(** ** WritingChatPanel: controls, keyboard, chat settings *)

Module WritingChatControls.
Import WritingChatPanel.

Definition setSelectedGroupId (v : option string) : M unit :=
  update (fun s => {| message := message s; selectedGroupId := v;
                      searchSettings := searchSettings s |}).

Definition setSearchSettings (f : SearchSettings -> SearchSettings) : M unit :=
  update (fun s => {| message := message s; selectedGroupId := selectedGroupId s;
                      searchSettings := f (searchSettings s) |}).

(** The click handlers of the two switches:
    [prev => ({ ...prev, useWebSearch: !prev.useWebSearch })] and the same
    for [deepSearch]. *)
Definition toggleWebSearch : M unit :=
  setSearchSettings (fun prev => {|
    useWebSearch := negb (useWebSearch prev);
    deepSearch := deepSearch prev;
    maxIterations := maxIterations prev;
    maxQueries := maxQueries prev;
    deepSearchIterations := deepSearchIterations prev;
    deepSearchQueries := deepSearchQueries prev |}).

Definition toggleDeepSearch : M unit :=
  setSearchSettings (fun prev => {|
    useWebSearch := useWebSearch prev;
    deepSearch := negb (deepSearch prev);
    maxIterations := maxIterations prev;
    maxQueries := maxQueries prev;
    deepSearchIterations := deepSearchIterations prev;
    deepSearchQueries := deepSearchQueries prev |}).

(** The deep-search switch is rendered when web search is on or a document
    group is selected, and [disabled] while loading. *)
Definition deepSearchShown (s : State) : bool :=
  useWebSearch (searchSettings s) || JS.truthy (selectedGroupId s).

Definition deepSearchDisabled (v : StoreView) (s : State) : bool :=
  isLoading v
  || (negb (useWebSearch (searchSettings s)) && negb (JS.truthy (selectedGroupId s))).

Definition clickDeepSearch (v : StoreView) : M unit :=
  shown <- read deepSearchShown ;;
  disabled <- read (deepSearchDisabled v) ;;
  if shown && negb disabled then toggleDeepSearch else ret tt.

Definition clickWebSearch (v : StoreView) : M unit :=
  if isLoading v then ret tt else toggleWebSearch.

(** The document-group select: its [value] and its [onValueChange]. *)
Definition selectValue (s : State) : string :=
  JS.orElse (selectedGroupId s) "none".

Definition onValueChange (value : string) : M unit :=
  if String.eqb value "none" then setSelectedGroupId None
  else setSelectedGroupId (Some value).

(** The send button's [disabled]. *)
Definition sendDisabled (v : StoreView) (s : State) : bool :=
  negb (JS.truthyStr (JS.trim (message s))) || isLoading v.

Record KeyboardEvent := {
  key : string;
  shiftKey : bool
}.

(** [handleKeyPress]; answers whether it called [preventDefault] and
    whether [sendMessage] is now in flight. *)
Definition handleKeyPress (v : StoreView) (e : KeyboardEvent) : M (bool * bool) :=
  if String.eqb (key e) "Enter" && negb (shiftKey e) then
    (started <- handleSendMessage_request v ;;
     ret (true, started))
  else ret (false, false).

Definition getAgentStatusMessage (status : option string) : string :=
  match status with
  | Some st => if negb (JS.truthyStr st) || String.eqb st "idle" then "" else st
  | None => ""
  end.

(** The text of the bubble shown while loading. *)
Definition loadingBubble (v : StoreView) : option string :=
  if isLoading v then Some (getAgentStatusMessage (agentStatus v)) else None.

End WritingChatControls.

(** ** WritingChatPanel: the tool settings kept with a chat *)

Module WritingChatSettings.
Import WritingChatPanel WritingChatControls.

(** [settings.tools] as stored with a chat; any field may be missing. *)
Record SavedTools := {
  t_documentGroupId : option string;
  t_useWebSearch : option bool;
  t_deepSearch : option bool;
  t_maxIterations : option nat;
  t_maxQueries : option nat;
  t_deepSearchIterations : option nat;
  t_deepSearchQueries : option nat
}.

(** A value of the [settings] object of a chat: the tools, or anything
    else, kept as it is. *)
Inductive SettingValue :=
| ToolsValue (tools : SavedTools)
| OtherValue (json : string).

(** [activeChat]: its id and its [settings] object, if it has one. *)
Record Chat := {
  chat_id : string;
  chat_settings : option (gmap string SettingValue)
}.

(** [activeChat.settings?.tools] *)
Definition savedTools (chat : Chat) : option SavedTools :=
  match chat_settings chat with
  | Some settings =>
      match settings !! "tools" with
      | Some (ToolsValue tools) => Some tools
      | _ => None
      end
  | None => None
  end.

(** The panel's hooks together with [isLoadingChatSettings]. *)
Record SettingsState := {
  panel : State;
  isLoadingChatSettings : bool
}.

Inductive SettingsEffect :=
| ApiPut (path : string) (settings : gmap string SettingValue)
| StoreSetActiveChat (chat : Chat)
| SettingsTimeout (ms : nat)
| SettingsConsoleError (msg : string).

Definition SM (A : Type) : Type := Handler.M SettingsState SettingsEffect A.

Definition setPanel (f : State -> State) : SM unit :=
  update (fun s => {| panel := f (panel s);
                      isLoadingChatSettings := isLoadingChatSettings s |}).

Definition setIsLoadingChatSettings (v : bool) : SM unit :=
  update (fun s => {| panel := panel s; isLoadingChatSettings := v |}).

(** The settings a chat brings: what is stored, else the user's
    preference, else the built-in default. *)
Definition settingsFromTools (userParams : option ResearchParameters)
    (tools : SavedTools) : SearchSettings := {|
  useWebSearch := default false (t_useWebSearch tools);
  deepSearch := default false (t_deepSearch tools);
  maxIterations :=
    default (paramOr userParams writing_search_max_iterations 1) (t_maxIterations tools);
  maxQueries :=
    default (paramOr userParams writing_search_max_queries 3) (t_maxQueries tools);
  deepSearchIterations :=
    default (paramOr userParams writing_deep_search_iterations 3)
            (t_deepSearchIterations tools);
  deepSearchQueries :=
    default (paramOr userParams writing_deep_search_queries 5)
            (t_deepSearchQueries tools)
|}.

(** The effect that loads the saved tool settings when the active chat
    changes. *)
Definition loadChatSettings (userParams : option ResearchParameters)
    (activeChat : option Chat) : SM unit :=
  match activeChat with
  | Some chat =>
      setIsLoadingChatSettings true ;;
      match savedTools chat with
      | Some tools =>
          setPanel (fun s => {|
            message := message s;
            selectedGroupId :=
              if JS.truthy (t_documentGroupId tools) then t_documentGroupId tools
              else None;
            searchSettings := settingsFromTools userParams tools |})
      | None =>
          setPanel (fun s => {|
            message := message s;
            selectedGroupId := None;
            searchSettings := defaultSearchSettings userParams |})
      end ;;
      emit (SettingsTimeout 100)
  | None => ret tt
  end.

(** The callback of that timer. *)
Definition chatSettingsLoaded : SM unit := setIsLoadingChatSettings false.

(** The [tools] object that [saveToolSettings] writes. *)
Definition toolsOf (s : State) : SavedTools := {|
  t_documentGroupId := selectedGroupId s;
  t_useWebSearch := Some (useWebSearch (searchSettings s));
  t_deepSearch := Some (deepSearch (searchSettings s));
  t_maxIterations := Some (maxIterations (searchSettings s));
  t_maxQueries := Some (maxQueries (searchSettings s));
  t_deepSearchIterations := Some (deepSearchIterations (searchSettings s));
  t_deepSearchQueries := Some (deepSearchQueries (searchSettings s))
|}.

(** [{ ...(activeChat.settings || {}), tools: ... }] *)
Definition chatSettingsOf (chat : Chat) (s : State) : gmap string SettingValue :=
  <["tools" := ToolsValue (toolsOf s)]> (default ∅ (chat_settings chat)).

(** [saveToolSettings] up to its [await]; answers the chat and the settings
    its continuation has captured when the request is in flight. *)
Definition saveToolSettings_request (activeChat : option Chat)
    : SM (option (Chat * gmap string SettingValue)) :=
  loading <- read isLoadingChatSettings ;;
  match activeChat with
  | Some chat =>
      if loading : bool then ret None
      else
        (s <- read panel ;;
         let chatSettings := chatSettingsOf chat s in
         emit (ApiPut ("/api/chats/" +:+ chat_id chat) chatSettings) ;;
         ret (Some (chat, chatSettings)))
  | None => ret None
  end.

Definition saveToolSettings_settled (chat : Chat)
    (chatSettings : gmap string SettingValue) (r : Settled) : SM unit :=
  match r with
  | Fulfilled =>
      emit (StoreSetActiveChat {| chat_id := chat_id chat;
                                  chat_settings := Some chatSettings |})
  | Rejected => emit (SettingsConsoleError "Failed to save tool settings:")
  end.

Definition saveToolSettings (activeChat : option Chat) (r : Settled) : SM unit :=
  started <- saveToolSettings_request activeChat ;;
  match started with
  | Some (chat, chatSettings) => saveToolSettings_settled chat chatSettings r
  | None => ret tt
  end.

(** The active chat as the store holds it after a trace. *)
Definition activeChatAfter (activeChat : option Chat) (es : list SettingsEffect)
    : option Chat :=
  foldl (fun c e => match e with StoreSetActiveChat chat => Some chat | _ => c end)
        activeChat es.

(** The panel showing [s], its chat settings loaded. *)
Definition idlePanel (s : State) : SettingsState := {|
  panel := s;
  isLoadingChatSettings := false
|}.

End WritingChatSettings.

(** * Properties *)

(** Unfolds a handler down to its state and trace. *)
Ltac run_handler :=
  cbv [bind read ret update emit when valueOf stateOf effectsOf
       NotesTab.setNotes NotesTab.setSearchTerm NotesTab.setSelectedFilter
       NotesTab.setIsLoading NotesTab.setIsLoadingMore NotesTab.setHasMoreNotes
       NotesTab.setTotalNotesCount NotesTab.setNewNotesCount
       NotesTab.setScrollContainer NotesTab.setLastScrollPosition
       NotesTab.setInitialLoadDone NotesTab.setPreviousMissionId
       NotesTab.fetchNotesAPI WritingChatPanel.setMessage];
  cbn [fst snd app
       NotesTab.notes NotesTab.searchTerm NotesTab.selectedFilter
       NotesTab.isLoading NotesTab.isLoadingMore NotesTab.hasMoreNotes
       NotesTab.totalNotesCount NotesTab.newNotesCount NotesTab.scrollContainer
       NotesTab.lastScrollPosition NotesTab.initialLoadDone
       NotesTab.previousMissionId
       WritingChatPanel.message WritingChatPanel.selectedGroupId
       WritingChatPanel.searchSettings].

(** ** The embedding at work *)

Module Examples.
Import NotesTab NotesFixtures.

Example trim_inner_space_kept : JS.trim "  deep  dive  " = "deep  dive".
Proof. reflexivity. Qed.

Example includes_lowered :
  JS.includes (JS.toLowerCase "REPORT") (JS.toLowerCase "Annual Report 2024") = true.
Proof. reflexivity. Qed.

Example lines_of_entry :
  JS.lines ("a" +:+ JS.nl +:+ "---" +:+ JS.nl) = ["a"; "---"; ""].
Proof. reflexivity. Qed.

Example first_page_path :
  notesPath "m1" 100 0 = "/api/missions/m1/notes?limit=100&offset=0".
Proof. reflexivity. Qed.

(** A first page of one note out of two, then the next page. *)
Example two_pages :
  let loaded := stateOf (loadInitialNotes "m1"
                  (Fulfilled (Page [noteA] (Some 2) (Some true))) initialState) in
  let r := loadMoreNotes "m1" (Fulfilled (Page [noteB] (Some 2) None)) loaded in
  notes (stateOf r) = [noteA; noteB]
  ∧ hasMoreNotes (stateOf r) = false
  ∧ effectsOf r = [ApiGet "/api/missions/m1/notes?limit=100&offset=1";
                   SetMissionNotes "m1" [noteA; noteB]].
Proof. repeat split. Qed.

Example export_text :
  notesText (fun ts => ts) [noteA; noteB]
  = "[t1] (Unknown source)" +:+ JS.nl +:+ "alpha" +:+ JS.nl
      +:+ "URL: https://example.org" +:+ JS.nl +:+ "---" +:+ JS.nl
      +:+ JS.nl
      +:+ "[t2] (paper.pdf)" +:+ JS.nl +:+ "beta" +:+ JS.nl
      +:+ "" +:+ JS.nl +:+ "---" +:+ JS.nl.
Proof. reflexivity. Qed.

Example export_name : exportFileName "0123456789abcdef" = "mission-notes-01234567.txt".
Proof. reflexivity. Qed.

Example filter_counts :
  let st := stateOf (loadInitialNotes "m1" (Fulfilled (BareArray [noteA; noteB]))
                       initialState) in
  (getFilterCount All st, getFilterCount Web st, getFilterCount Documents st)
  = (2, 1, 1).
Proof. reflexivity. Qed.

End Examples.

Module AgentActivityLogSpec.
Import AgentActivityLog.

Lemma elem_of_toggle (index j : nat) (expanded : gset nat) :
  j ∈ toggleLogExpansion index expanded
  <-> (j = index ∧ index ∉ expanded) ∨ (j ≠ index ∧ j ∈ expanded).
Proof.
  unfold toggleLogExpansion.
  destruct (decide (index ∈ expanded)) as [Hin|Hout].
  - rewrite elem_of_difference, elem_of_singleton.
    destruct (decide (j = index)) as [->|Hne]; tauto.
  - rewrite elem_of_union, elem_of_singleton.
    destruct (decide (j = index)) as [->|Hne]; tauto.
Qed.

Lemma isExpanded_toggle (index j : nat) (expanded : gset nat) :
  isExpanded (toggleLogExpansion index expanded) j =
  if decide (j = index) then negb (isExpanded expanded j) else isExpanded expanded j.
Proof.
  unfold isExpanded.
  destruct (decide (j = index)) as [->|Hne].
  - destruct (decide (index ∈ expanded)) as [Hin|Hout].
    + rewrite (bool_decide_eq_true_2 (index ∈ expanded)) by exact Hin.
      apply bool_decide_eq_false_2. rewrite elem_of_toggle. tauto.
    + rewrite (bool_decide_eq_false_2 (index ∈ expanded)) by exact Hout.
      apply bool_decide_eq_true_2. rewrite elem_of_toggle. tauto.
  - apply bool_decide_ext. rewrite elem_of_toggle. tauto.
Qed.

(** C10. Toggling the same log index twice gives back the set of expanded
    entries, and one toggle flips the expansion of that index and of no
    other: for every index [j], entry [j] is expanded afterwards exactly
    when it was not before, if [j] is the toggled index, and exactly when
    it was before otherwise. *)
Theorem toggleLogExpansion_involution (index : nat) (expanded : gset nat) :
  toggleLogExpansion index (toggleLogExpansion index expanded) = expanded
  ∧ ∀ j, isExpanded (toggleLogExpansion index expanded) j =
         if decide (j = index) then negb (isExpanded expanded j)
         else isExpanded expanded j.
Proof.
  split; [| intros j; apply isExpanded_toggle].
  apply set_eq. intros x. rewrite !elem_of_toggle.
  destruct (decide (x = index)) as [->|Hne]; [|tauto].
  destruct (decide (index ∈ expanded)); tauto.
Qed.

End AgentActivityLogSpec.

Module NotesTabSpec.
Import NotesTab NotesFixtures.

(** *** Classification of notes *)

Lemma web_documents_exclusive (note : Note) :
  matchesFilter Web note && matchesFilter Documents note = false.
Proof.
  unfold matchesFilter. cbn.
  destruct (JS.truthy (url note)), (JS.truthy (source note)); reflexivity.
Qed.

Lemma filterNotes_empty_of_exclusive (t t' : string) (f g : Filter) (ns : list Note) :
  (∀ note, matchesFilter f note && matchesFilter g note = false) ->
  filterNotes t f (filterNotes t' g ns) = [].
Proof.
  intros Hex. unfold filterNotes.
  induction ns as [|n ns IH]; [reflexivity|].
  cbn [List.filter].
  destruct (matchesSearch t' n && matchesFilter g n) eqn:Hg; [|exact IH].
  cbn [List.filter]. rewrite IH.
  apply andb_true_iff in Hg as [_ Hg].
  specialize (Hex n). rewrite Hg, andb_true_r in Hex. rewrite Hex.
  rewrite andb_false_r. reflexivity.
Qed.

Lemma filter_counts_le (ns : list Note) :
  length (List.filter (fun note => JS.truthy (url note)) ns)
  + length (List.filter (fun note => JS.truthy (source note)
                                     && negb (JS.truthy (url note))) ns)
  <= length ns.
Proof.
  induction ns as [|n ns IH]; [reflexivity|].
  cbn [List.filter].
  destruct (JS.truthy (url n)), (JS.truthy (source n)); cbn; lia.
Qed.

Lemma filterNotes_matches (t : string) (f : Filter) (ns : list Note) (note : Note) :
  note ∈ filterNotes t f ns -> matchesFilter f note = true.
Proof.
  unfold filterNotes. rewrite list_elem_of_In, List.filter_In, andb_true_iff.
  tauto.
Qed.

(** C5. The web and the documents categories are disjoint: no note
    satisfies both predicates; the notes kept by the web filter and the
    notes kept by the documents filter have no note in common, whatever the
    search terms; filtering the notes kept by one filter with the other
    keeps nothing; and the two counts shown on the filter buttons never add
    up to more than the number of notes. *)
Theorem web_documents_disjoint (t t' : string) (s : State) (note : Note) :
  matchesFilter Web note && matchesFilter Documents note = false
  ∧ list_intersection (filterNotes t Web (notes s))
                      (filterNotes t' Documents (notes s)) = []
  ∧ filterNotes t Web (filterNotes t' Documents (notes s)) = []
  ∧ filterNotes t Documents (filterNotes t' Web (notes s)) = []
  ∧ getFilterCount Web s + getFilterCount Documents s <= length (notes s).
Proof.
  split; [apply web_documents_exclusive|].
  split; [|split; [|split]].
  - apply elem_of_nil_inv. intros x Hx.
    apply list_elem_of_intersection in Hx as [Hweb Hdoc].
    apply filterNotes_matches in Hweb, Hdoc.
    pose proof (web_documents_exclusive x) as Hex.
    rewrite Hweb, Hdoc in Hex. discriminate Hex.
  - apply filterNotes_empty_of_exclusive, web_documents_exclusive.
  - apply filterNotes_empty_of_exclusive. intros n.
    rewrite andb_comm. apply web_documents_exclusive.
  - apply filter_counts_le.
Qed.

(** *** Busy flags *)

Lemma loadMoreNotes_request_blocked (m : string) (st : State) :
  negb (hasMoreNotes st) || isLoadingMore st = true ->
  loadMoreNotes_request m st = (None, st, []).
Proof.
  intros H. unfold loadMoreNotes_request. run_handler. rewrite H. reflexivity.
Qed.

Lemma loadAllNotes_request_blocked (m : string) (st : State) :
  hasMoreNotes st = false -> loadAllNotes_request m st = (false, st, []).
Proof.
  intros H. unfold loadAllNotes_request. run_handler. rewrite H. reflexivity.
Qed.

Lemma clickLoadAll_blocked (m : string) (st : State) :
  isLoading st = true -> clickLoadAll m st = (false, st, []).
Proof.
  intros H. unfold clickLoadAll, loadAllDisabled. run_handler.
  rewrite H. cbn. rewrite andb_false_r. reflexivity.
Qed.

Lemma clickLoadMore_blocked (m : string) (st : State) :
  isLoadingMore st = true -> clickLoadMore m st = (None, st, []).
Proof.
  intros H. unfold clickLoadMore, loadMoreDisabled. run_handler.
  rewrite H. cbn. rewrite andb_false_r. reflexivity.
Qed.

(** C3. Load next page and load all remaining do nothing while their fetch
    is in flight. [loadMoreNotes] invoked while [isLoadingMore] is set
    changes no state and sends no request, called as it is or through its
    button. [loadAllNotes] is invoked by the Load All button only, which is
    disabled while [isLoading] is set: invoking it then changes no state and
    sends no request. Once nothing more is to be loaded, [loadAllNotes] does
    nothing either. *)
Theorem busy_flag_guards (m : string) (r : Settled) (st : State) :
  (isLoadingMore st = true ->
     loadMoreNotes_request m st = (None, st, [])
     ∧ loadMoreNotes m r st = (tt, st, [])
     ∧ clickLoadMore m st = (None, st, []))
  ∧ (isLoading st = true -> clickLoadAll m st = (false, st, []))
  ∧ (hasMoreNotes st = false ->
       loadAllNotes_request m st = (false, st, [])
       ∧ loadAllNotes m r st = (tt, st, [])).
Proof.
  split; [|split].
  - intros H.
    assert (Hreq : loadMoreNotes_request m st = (None, st, [])).
    { apply loadMoreNotes_request_blocked. rewrite H. apply orb_true_r. }
    split; [exact Hreq|]. split; [|exact (clickLoadMore_blocked m st H)].
    unfold loadMoreNotes, bind. rewrite Hreq. reflexivity.
  - apply clickLoadAll_blocked.
  - intros H.
    pose proof (loadAllNotes_request_blocked m st H) as Hreq.
    split; [exact Hreq|].
    unfold loadAllNotes, bind. rewrite Hreq. reflexivity.
Qed.

Lemma busy_flag_guards_witness :
  (loadMoreNotes "m1" Rejected nextPageInFlight = (tt, nextPageInFlight, [])
   ∧ clickLoadMore "m1" nextPageInFlight = (None, nextPageInFlight, []))
  ∧ clickLoadAll "m1" firstLoadInFlight = (false, firstLoadInFlight, [])
  ∧ loadAllNotes "m1" Rejected everythingLoaded = (tt, everythingLoaded, []).
Proof.
  destruct (busy_flag_guards "m1" Rejected nextPageInFlight) as (Hmore & _ & _).
  destruct (busy_flag_guards "m1" Rejected firstLoadInFlight) as (_ & Hall & _).
  destruct (busy_flag_guards "m1" Rejected everythingLoaded) as (_ & _ & Hdone).
  destruct (Hmore eq_refl) as (_ & Hhandler & Hbutton).
  split; [split; [exact Hhandler | exact Hbutton]|].
  split; [exact (Hall eq_refl) | exact (proj2 (Hdone eq_refl))].
Defined.

(** *** The initial load *)

Lemma optStrEq_refl (a : option string) : JS.optStrEq a a = true.
Proof. destruct a; [apply String.eqb_refl | reflexivity]. Qed.

Lemma optStrEq_eq (a b : option string) : JS.optStrEq a b = true <-> a = b.
Proof.
  destruct a, b; cbn; try (split; congruence).
  rewrite String.eqb_eq. split; congruence.
Qed.

(** A request of the initial load leaves [previousMissionId] at the
    mission it was made for. *)
Lemma loadInitialNotes_request_previous (m : string) (st : State) :
  previousMissionId (stateOf (loadInitialNotes_request m st)) = Some m.
Proof.
  unfold loadInitialNotes_request. run_handler.
  destruct (JS.optStrEq (previousMissionId st) (Some m)) eqn:Hprev; cbn.
  - apply optStrEq_eq in Hprev.
    destruct (initialLoadDone st); cbn; exact Hprev.
  - reflexivity.
Qed.

Lemma loadInitialNotes_request_done (m : string) (st : State) :
  initialLoadDone st = true -> previousMissionId st = Some m ->
  loadInitialNotes_request m st = (false, st, []).
Proof.
  intros Hdone Hprev. unfold loadInitialNotes_request. run_handler.
  rewrite Hprev, optStrEq_refl. cbn. rewrite Hdone. reflexivity.
Qed.

Lemma loadInitialNotes_settled_previous (m : string) (r : Settled) (st : State) :
  previousMissionId (stateOf (loadInitialNotes_settled m r st)) = previousMissionId st.
Proof. destruct r as [data|]; reflexivity. Qed.

Lemma loadInitialNotes_fulfilled_done (m : string) (data : NotesData) (st : State) :
  initialLoadDone (stateOf (loadInitialNotes m (Fulfilled data) st)) = true
  ∧ previousMissionId (stateOf (loadInitialNotes m (Fulfilled data) st)) = Some m.
Proof.
  pose proof (loadInitialNotes_request_previous m st) as Hprev.
  unfold loadInitialNotes, bind.
  destruct (loadInitialNotes_request m st) as [[started st1] e1] eqn:Hreq.
  cbn in Hprev. destruct started.
  - split; [reflexivity | exact Hprev].
  - cbn. split; [|exact Hprev].
    revert Hreq. unfold loadInitialNotes_request. run_handler.
    destruct (JS.optStrEq (previousMissionId st) (Some m)); cbn.
    + destruct (initialLoadDone st) eqn:Hd; cbn; intros Heq;
        [injection Heq as <- _; exact Hd | discriminate Heq].
    + discriminate.
Qed.

(** Splits a handler along the tests it makes. *)
Ltac split_handler :=
  repeat (run_handler;
          match goal with
          | |- context [match ?x with Some _ => _ | None => _ end] => destruct x
          | |- context [if ?b then _ else _] => destruct b eqn:?
          end);
  run_handler.

(** While the tab stays on its mission, nothing it does takes back that the
    initial load is done. *)
Lemma handleEvent_keeps_loaded (m : string) (ev : TabEvent) (st : State) :
  initialLoadDone st = true -> previousMissionId st = Some m ->
  initialLoadDone (stateOf (handleEvent m ev st)) = true
  ∧ previousMissionId (stateOf (handleEvent m ev st)) = Some m.
Proof.
  intros Hdone Hprev.
  pose proof (loadInitialNotes_request_done m st Hdone Hprev) as Hreq.
  destruct ev as [r| |r|r| |n r|r| |r| | |am|am|cb| | | | |fmt];
    cbn [handleEvent]; unfold forget.
  - unfold loadInitialNotes, bind. rewrite Hreq. split; assumption.
  - unfold bind. rewrite Hreq. split; assumption.
  - destruct r; split; [reflexivity | exact Hprev | exact Hdone | exact Hprev].
  - unfold loadMoreNotes, loadMoreNotes_request. destruct r; split_handler;
      split; assumption.
  - unfold loadMoreNotes_request. split_handler; split; assumption.
  - destruct r; split; assumption.
  - unfold loadAllNotes, loadAllNotes_request. destruct r; split_handler;
      split; assumption.
  - unfold loadAllNotes_request. split_handler; split; assumption.
  - destruct r; split; assumption.
  - unfold clickLoadMore, loadMoreNotes_request. split_handler; split; assumption.
  - unfold clickLoadAll, loadAllNotes_request. split_handler; split; assumption.
  - unfold storeSyncEffect, preserveScrollPosition.
    destruct am as [am|]; [destruct (mission_notes am)|]; split_handler;
      split; assumption.
  - unfold initialStoreSyncEffect.
    destruct am as [am|]; [destruct (mission_notes am)|]; split_handler;
      split; assumption.
  - destruct cb; unfold runTimer, restoreScrollPosition; split_handler;
      split; assumption.
  - unfold handleScroll. split_handler; split; assumption.
  - split; assumption.
  - split; assumption.
  - split; assumption.
  - unfold clickExport, handleExportNotes. split_handler; split; assumption.
Qed.

Lemma afterEvents_keeps_loaded (m : string) (evs : list TabEvent) (st : State) :
  initialLoadDone st = true -> previousMissionId st = Some m ->
  initialLoadDone (afterEvents m evs st) = true
  ∧ previousMissionId (afterEvents m evs st) = Some m.
Proof.
  unfold afterEvents. revert st.
  induction evs as [|ev evs IH]; intros st Hdone Hprev; [split; assumption|].
  cbn [foldl].
  destruct (handleEvent_keeps_loaded m ev st Hdone Hprev) as [Hdone' Hprev'].
  exact (IH _ Hdone' Hprev').
Qed.

(** After a change of mission the initial load starts over: it empties the
    list, zeroes the total and sends the request for the first page. *)
Lemma loadInitialNotes_request_switch (m : string) (st : State) :
  previousMissionId st ≠ Some m ->
  valueOf (loadInitialNotes_request m st) = true
  ∧ effectsOf (loadInitialNotes_request m st) = [ApiGet (notesPath m 100 0)]
  ∧ notes (stateOf (loadInitialNotes_request m st)) = []
  ∧ totalNotesCount (stateOf (loadInitialNotes_request m st)) = 0
  ∧ isLoading (stateOf (loadInitialNotes_request m st)) = true.
Proof.
  intros Hother. unfold loadInitialNotes_request. run_handler.
  destruct (JS.optStrEq (previousMissionId st) (Some m)) eqn:Heq.
  - apply optStrEq_eq in Heq. contradiction.
  - repeat split.
Qed.

Lemma loadInitialNotes_fulfilled_switch (m : string) (data : NotesData) (st : State) :
  previousMissionId st ≠ Some m ->
  notes (stateOf (loadInitialNotes m (Fulfilled data) st)) = data_notes data
  ∧ effectsOf (loadInitialNotes m (Fulfilled data) st)
    = [ApiGet (notesPath m 100 0); SetMissionNotes m (data_notes data)].
Proof.
  intros Hother. unfold loadInitialNotes, loadInitialNotes_request. run_handler.
  destruct (JS.optStrEq (previousMissionId st) (Some m)) eqn:Heq.
  - apply optStrEq_eq in Heq. contradiction.
  - repeat split.
Qed.

(** C2, as the code has it. Once an initial load of a mission has been
    answered, every further invocation of the initial load for that mission
    is a no-op for as long as the tab stays on the mission, whatever else
    the tab does in between: it changes no state and sends no request,
    however the server would answer. When the tab has been on another
    mission since, the initial load starts over: it empties the list,
    zeroes the total and sends the request for the first page again, and
    its answer sets the list to exactly the notes of the response, once
    over, so that the list has no note twice when the response has none
    twice. An initial load never appends to the list. *)
Theorem loadInitialNotes_again_is_noop (m : string) (data : NotesData)
    (evs : list TabEvent) (r : Settled) (st : State) :
  loadInitialNotes_request m
    (afterEvents m evs (stateOf (loadInitialNotes m (Fulfilled data) st)))
    = (false, afterEvents m evs (stateOf (loadInitialNotes m (Fulfilled data) st)), [])
  ∧ loadInitialNotes m r
      (afterEvents m evs (stateOf (loadInitialNotes m (Fulfilled data) st)))
    = (tt, afterEvents m evs (stateOf (loadInitialNotes m (Fulfilled data) st)), [])
  ∧ notes (stateOf (loadInitialNotes m r
                      (stateOf (loadInitialNotes m (Fulfilled data) st))))
    = (if valueOf (loadInitialNotes_request m st) then data_notes data
       else notes st)
  ∧ (previousMissionId st ≠ Some m ->
     (valueOf (loadInitialNotes_request m st) = true
      ∧ effectsOf (loadInitialNotes_request m st) = [ApiGet (notesPath m 100 0)]
      ∧ notes (stateOf (loadInitialNotes_request m st)) = []
      ∧ totalNotesCount (stateOf (loadInitialNotes_request m st)) = 0)
     ∧ notes (stateOf (loadInitialNotes m (Fulfilled data) st)) = data_notes data
     ∧ (NoDup (note_id <$> data_notes data) ->
        NoDup (note_id <$> notes (stateOf (loadInitialNotes m (Fulfilled data) st))))).
Proof.
  destruct (loadInitialNotes_fulfilled_done m data st) as [Hdone Hprev].
  assert (Hnoop : ∀ st', initialLoadDone st' = true -> previousMissionId st' = Some m ->
            loadInitialNotes m r st' = (tt, st', [])).
  { intros st' Hd Hp. unfold loadInitialNotes, bind.
    rewrite (loadInitialNotes_request_done m st' Hd Hp). reflexivity. }
  destruct (afterEvents_keeps_loaded m evs _ Hdone Hprev) as [Hdone' Hprev'].
  split; [exact (loadInitialNotes_request_done m _ Hdone' Hprev')|].
  split; [exact (Hnoop _ Hdone' Hprev')|].
  split.
  - rewrite (Hnoop _ Hdone Hprev). cbn [stateOf fst snd].
    unfold loadInitialNotes, bind.
    destruct (loadInitialNotes_request m st) as [[started st1] e1] eqn:Hfirst.
    destruct started; cbn; [reflexivity|].
    revert Hfirst. unfold loadInitialNotes_request. run_handler.
    destruct (JS.optStrEq (previousMissionId st) (Some m)); cbn.
    + destruct (initialLoadDone st); cbn; intros Heq;
        [injection Heq as <- _; reflexivity | discriminate Heq].
    + discriminate.
  - intros Hother.
    destruct (loadInitialNotes_request_switch m st Hother) as (Hv & He & Hn & Ht & _).
    destruct (loadInitialNotes_fulfilled_switch m data st Hother) as [Hset _].
    split; [repeat split; assumption|]. split; [exact Hset|].
    intros Hnodup. rewrite Hset. exact Hnodup.
Qed.

Lemma loadInitialNotes_again_is_noop_witness :
  (valueOf (loadInitialNotes_request "m1" afterOtherMission) = true
   ∧ effectsOf (loadInitialNotes_request "m1" afterOtherMission)
     = [ApiGet "/api/missions/m1/notes?limit=100&offset=0"]
   ∧ notes (stateOf (loadInitialNotes_request "m1" afterOtherMission)) = []
   ∧ totalNotesCount (stateOf (loadInitialNotes_request "m1" afterOtherMission)) = 0)
  ∧ notes (stateOf (loadInitialNotes "m1" (Fulfilled (BareArray [note1; note2]))
                      afterOtherMission))
    = [note1; note2]
  ∧ NoDup (note_id <$> notes (stateOf (loadInitialNotes "m1"
                                        (Fulfilled (BareArray [note1; note2]))
                                        afterOtherMission))).
Proof.
  assert (Hother : previousMissionId afterOtherMission ≠ Some "m1") by discriminate.
  destruct (proj2 (proj2 (proj2
              (loadInitialNotes_again_is_noop "m1" (BareArray [note1; note2]) []
                 Rejected afterOtherMission))) Hother) as (Hstart & Hset & Hnodup).
  split; [exact Hstart|]. split; [exact Hset|].
  apply Hnodup. apply NoDup_cons. split.
  - intros Hin. apply list_elem_of_singleton in Hin. discriminate Hin.
  - apply NoDup_singleton.
Defined.

(** C2 as stated fails once the tab has shown another mission in between:
    after mission m1 has been loaded and then mission m2, the initial load
    for m1 empties the list and sends its request again. *)
Lemma loadInitialNotes_again_after_other_mission :
  requestsOf (effectsOf (loadInitialNotes_request "m1"
    (stateOf (loadInitialNotes "m2" (Fulfilled (BareArray [note2]))
       (stateOf (loadInitialNotes "m1" (Fulfilled (BareArray [note1])) initialState))))))
  = ["/api/missions/m1/notes?limit=100&offset=0"]
  ∧ ¬ (loadInitialNotes_request "m1"
         (stateOf (loadInitialNotes "m2" (Fulfilled (BareArray [note2]))
            (stateOf (loadInitialNotes "m1" (Fulfilled (BareArray [note1])) initialState))))
       = (false,
          stateOf (loadInitialNotes "m2" (Fulfilled (BareArray [note2]))
            (stateOf (loadInitialNotes "m1" (Fulfilled (BareArray [note1])) initialState))),
          [])).
Proof.
  split; [reflexivity|]. vm_compute. discriminate.
Qed.

(** *** The has-more flag *)

Lemma loadInitialNotes_settled_fulfilled (m : string) (data : NotesData) (st : State) :
  let st' := stateOf (loadInitialNotes_settled m (Fulfilled data) st) in
  notes st' = data_notes data
  ∧ totalNotesCount st' = JS.numOrElse (data_total data) (length (data_notes data))
  ∧ hasMoreNotes st' = match data_has_more data with
                       | Some h => h
                       | None => 100 <? totalNotesCount st'
                       end.
Proof. cbn. repeat split. Qed.

Lemma loadMoreNotes_settled_fulfilled (m : string) (n : nat) (data : NotesData)
    (st : State) :
  let st' := stateOf (loadMoreNotes_settled m n (Fulfilled data) st) in
  notes st' = notes st ++ data_notes data
  ∧ totalNotesCount st' = JS.numOrElse (data_total data) (n + length (data_notes data))
  ∧ hasMoreNotes st' = match data_has_more data with
                       | Some h => h
                       | None => n + length (data_notes data) <? totalNotesCount st'
                       end.
Proof. cbn. repeat split. Qed.

(** A next page that is sent captures the number of notes held then. *)
Lemma loadMoreNotes_request_sends (m : string) (st : State) :
  hasMoreNotes st = true -> isLoadingMore st = false ->
  loadMoreNotes_request m st
  = (Some (length (notes st)), stateOf (setIsLoadingMore true st),
     [ApiGet (notesPath m 100 (length (notes st)))]).
Proof.
  intros Hmore Hbusy. unfold loadMoreNotes_request. run_handler.
  destruct (hasMoreNotes st) eqn:E1, (isLoadingMore st) eqn:E2; try discriminate.
  cbn. rewrite ?E1, ?E2. reflexivity.
Qed.

(** C1, as the code has it. A response that carries [has_more] decides the
    flag: the client copies it, whatever the counts are. A response without
    it makes load-more clear the flag exactly when the total is at most the
    number [n] of notes held when the request was sent plus the notes of
    the response; that is when the notes held reach the total provided the
    list still has those [n] notes when the response arrives, as it has
    when [loadMoreNotes] runs from its request to its response with nothing
    in between. A response without [has_more] makes the initial load clear
    the flag exactly when the total is at most the page size of 100, which
    is when the notes held reach the total provided the response held the
    first [min 100 total] notes. *)
Theorem has_more_after_fetch (m : string) (n : nat) (data : NotesData) (st : State) :
  (∀ h, data_has_more data = Some h ->
     hasMoreNotes (stateOf (loadInitialNotes_settled m (Fulfilled data) st)) = h
     ∧ hasMoreNotes (stateOf (loadMoreNotes_settled m n (Fulfilled data) st)) = h)
  ∧ (data_has_more data = None ->
     (hasMoreNotes (stateOf (loadMoreNotes_settled m n (Fulfilled data) st)) = false
      <-> totalNotesCount (stateOf (loadMoreNotes_settled m n (Fulfilled data) st))
          <= n + length (data_notes data))
     ∧ (length (notes st) = n ->
        (hasMoreNotes (stateOf (loadMoreNotes_settled m n (Fulfilled data) st)) = false
         <-> totalNotesCount (stateOf (loadMoreNotes_settled m n (Fulfilled data) st))
             <= length (notes (stateOf (loadMoreNotes_settled m n
                                          (Fulfilled data) st)))))
     ∧ (hasMoreNotes st = true -> isLoadingMore st = false ->
        (hasMoreNotes (stateOf (loadMoreNotes m (Fulfilled data) st)) = false
         <-> totalNotesCount (stateOf (loadMoreNotes m (Fulfilled data) st))
             <= length (notes (stateOf (loadMoreNotes m (Fulfilled data) st)))))
     ∧ (hasMoreNotes (stateOf (loadInitialNotes_settled m (Fulfilled data) st)) = false
        <-> totalNotesCount (stateOf (loadInitialNotes_settled m (Fulfilled data) st))
            <= 100)
     ∧ (length (data_notes data)
          = 100 `min` totalNotesCount (stateOf (loadInitialNotes_settled m
                                                 (Fulfilled data) st)) ->
        (hasMoreNotes (stateOf (loadInitialNotes_settled m (Fulfilled data) st)) = false
         <-> totalNotesCount (stateOf (loadInitialNotes_settled m (Fulfilled data) st))
             <= length (notes (stateOf (loadInitialNotes_settled m
                                          (Fulfilled data) st)))))).
Proof.
  destruct (loadInitialNotes_settled_fulfilled m data st) as (Hn & Ht & Hh).
  destruct (loadMoreNotes_settled_fulfilled m n data st) as (Hn' & Ht' & Hh').
  split.
  - intros h Hsome. rewrite Hh, Hh', Hsome. split; reflexivity.
  - intros Hnone. split; [|split; [|split; [|split]]].
    + rewrite Hh', Hnone, Nat.ltb_ge. reflexivity.
    + intros Hlen. rewrite Hh', Hnone, Hn', length_app, Nat.ltb_ge, Hlen.
      reflexivity.
    + intros Hmore Hbusy. unfold loadMoreNotes, bind.
      rewrite (loadMoreNotes_request_sends m st Hmore Hbusy).
      destruct (loadMoreNotes_settled_fulfilled m (length (notes st)) data
                  (stateOf (setIsLoadingMore true st))) as (Hn2 & Ht2 & Hh2).
      cbn [stateOf fst snd].
      destruct (loadMoreNotes_settled m (length (notes st)) (Fulfilled data)
                  (stateOf (setIsLoadingMore true st))) as [[[] st2] e2].
      cbn [stateOf fst snd] in *.
      rewrite Hh2, Hnone, Hn2, length_app, Nat.ltb_ge. reflexivity.
    + rewrite Hh, Hnone, Nat.ltb_ge. reflexivity.
    + intros Hlen. rewrite Hh, Hnone, Hn, Nat.ltb_ge. lia.
Qed.

Lemma has_more_after_fetch_witness :
  hasMoreNotes (stateOf (loadInitialNotes_settled "m1"
                  (Fulfilled (Page [note1] (Some 1) (Some true))) firstLoadInFlight))
    = true
  ∧ (hasMoreNotes (stateOf (loadInitialNotes_settled "m1"
                     (Fulfilled (Page [note1] (Some 1) None)) firstLoadInFlight))
       = false
     <-> totalNotesCount (stateOf (loadInitialNotes_settled "m1"
                            (Fulfilled (Page [note1] (Some 1) None)) firstLoadInFlight))
         <= length (notes (stateOf (loadInitialNotes_settled "m1"
                             (Fulfilled (Page [note1] (Some 1) None)) firstLoadInFlight))))
  ∧ (hasMoreNotes (stateOf (loadMoreNotes_settled "m1" 1
                     (Fulfilled (Page [note2] (Some 2) None)) morePagesLeft))
       = false
     <-> totalNotesCount (stateOf (loadMoreNotes_settled "m1" 1
                            (Fulfilled (Page [note2] (Some 2) None)) morePagesLeft))
         <= length (notes (stateOf (loadMoreNotes_settled "m1" 1
                             (Fulfilled (Page [note2] (Some 2) None)) morePagesLeft))))
  ∧ (hasMoreNotes (stateOf (loadMoreNotes "m1"
                     (Fulfilled (Page [note2] (Some 2) None)) morePagesLeft))
       = false
     <-> totalNotesCount (stateOf (loadMoreNotes "m1"
                            (Fulfilled (Page [note2] (Some 2) None)) morePagesLeft))
         <= length (notes (stateOf (loadMoreNotes "m1"
                             (Fulfilled (Page [note2] (Some 2) None)) morePagesLeft)))).
Proof.
  destruct (has_more_after_fetch "m1" 0 (Page [note1] (Some 1) (Some true))
              firstLoadInFlight) as [Hflag _].
  destruct (has_more_after_fetch "m1" 0 (Page [note1] (Some 1) None)
              firstLoadInFlight) as [_ Hfirst].
  destruct (has_more_after_fetch "m1" 1 (Page [note2] (Some 2) None)
              morePagesLeft) as [_ Hnext].
  destruct (Hfirst eq_refl) as (_ & _ & _ & _ & Hpage).
  destruct (Hnext eq_refl) as (_ & Hheld & Hrun & _).
  split; [exact (proj1 (Hflag true eq_refl))|].
  split; [exact (Hpage eq_refl)|].
  split; [exact (Hheld eq_refl) | exact (Hrun eq_refl eq_refl)].
Defined.

(** Why C1 speaks of the notes held when the request was sent: the response
    is appended to the list as it is when the response arrives. A next page
    requested with 1 note held, a push update that brings the list to 3
    notes while the request is in flight, and a response of 1 note that
    tells a total of 3 and no [has_more], leave 4 notes held, a total of 3
    and the flag set. *)
Lemma has_more_set_after_push_in_flight :
  displayed (afterEvents "m1"
               [EvLoadMoreRequest;
                EvStoreSync (Some (pushed 2));
                EvLoadMoreSettled 1 (Fulfilled (Page [note2] (Some 3) None))]
               morePagesLeft)
  = ([note1; pushedNote 1; pushedNote 2; note2], 3, true)
  ∧ valueOf (loadMoreNotes_request "m1" morePagesLeft) = Some 1.
Proof. split; reflexivity. Qed.

(** C1 as stated fails: the server's [has_more] is taken as it comes. A
    first page that holds the one note there is ([total] 1) and still says
    [has_more: true] leaves the flag set although the notes held reach the
    total. *)
Lemma has_more_set_with_all_notes_held :
  ¬ (hasMoreNotes (stateOf (loadInitialNotes "m1"
                     (Fulfilled (Page [note1] (Some 1) (Some true))) initialState))
       = false
     <-> totalNotesCount (stateOf (loadInitialNotes "m1"
                            (Fulfilled (Page [note1] (Some 1) (Some true))) initialState))
         <= length (notes (stateOf (loadInitialNotes "m1"
                             (Fulfilled (Page [note1] (Some 1) (Some true)))
                             initialState)))).
Proof.
  vm_compute. intros [_ H]. specialize (H (le_n 1)). discriminate H.
Qed.

(** *** Notifications of the store reconciliation *)

Lemma storeSyncEffect_toasts (am : Mission) (m : string) (storeNotes : list Note)
    (st : State) :
  mission_notes am = Some storeNotes ->
  toastsOf (effectsOf (storeSyncEffect (Some am) m st)) =
  if String.eqb (mission_id am) m && initialLoadDone st
     && JS.optStrEq (previousMissionId st) (Some m)
     && (notificationThreshold <=? length storeNotes - length (notes st))
  then [newNotesToast (length storeNotes - length (notes st))]
  else [].
Proof.
  intros Hnotes.
  assert (HZ : ∀ a b, Z.to_nat (0 `max` (Z.of_nat a - Z.of_nat b)) = a - b) by lia.
  unfold storeSyncEffect, preserveScrollPosition. rewrite Hnotes. run_handler.
  destruct (String.eqb (mission_id am) m), (initialLoadDone st);
    cbn [andb]; try reflexivity.
  run_handler.
  destruct (JS.optStrEq (previousMissionId st) (Some m)); cbn [andb].
  - destruct (negb (length storeNotes =? length (notes st))
              || negb (JS.optStrEq (lastNoteId (notes st)) (lastNoteId storeNotes)))
      eqn:Hchanged.
    + rewrite HZ.
      destruct (scrollContainer st);
        destruct (notificationThreshold <=? length storeNotes - length (notes st));
        reflexivity.
    + apply orb_false_iff in Hchanged as [Hlen _].
      apply negb_false_iff, Nat.eqb_eq in Hlen. rewrite Hlen, Nat.sub_diag.
      reflexivity.
  - destruct (0 <? length storeNotes); reflexivity.
Qed.

(** What a reconciliation has taken over from the store is not taken over
    again: run once more against the same store, the effect does nothing. *)
Lemma storeSyncEffect_settles (am : Mission) (m : string) (storeNotes : list Note)
    (st : State) :
  mission_id am = m -> mission_notes am = Some storeNotes ->
  initialLoadDone st = true -> previousMissionId st = Some m ->
  effectsOf (storeSyncEffect (Some am) m (stateOf (storeSyncEffect (Some am) m st)))
  = [].
Proof.
  intros Hid Hnotes Hdone Hprev.
  assert (Hquiet : ∀ st', initialLoadDone st' = true -> previousMissionId st' = Some m ->
            negb (length storeNotes =? length (notes st'))
            || negb (JS.optStrEq (lastNoteId (notes st')) (lastNoteId storeNotes)) = false ->
            storeSyncEffect (Some am) m st' = (tt, st', [])).
  { intros st' Hd Hp Hsame. unfold storeSyncEffect. rewrite Hnotes. run_handler.
    rewrite Hid, String.eqb_refl, Hd. cbn [andb]. run_handler.
    rewrite Hp, optStrEq_refl, Hsame. reflexivity. }
  destruct (negb (length storeNotes =? length (notes st))
            || negb (JS.optStrEq (lastNoteId (notes st)) (lastNoteId storeNotes)))
    eqn:Hchanged.
  - assert (Hfirst : notes (stateOf (storeSyncEffect (Some am) m st)) = storeNotes
                     ∧ initialLoadDone (stateOf (storeSyncEffect (Some am) m st)) = true
                     ∧ previousMissionId (stateOf (storeSyncEffect (Some am) m st)) = Some m).
    { unfold storeSyncEffect, preserveScrollPosition. rewrite Hnotes. run_handler.
      rewrite Hid, String.eqb_refl, Hdone. cbn [andb]. run_handler.
      rewrite Hprev, optStrEq_refl, Hchanged.
      destruct (scrollContainer st);
        destruct (notificationThreshold <=? _); repeat split; assumption. }
    destruct Hfirst as (Hn & Hd & Hp).
    rewrite Hquiet; [reflexivity | exact Hd | exact Hp |].
    rewrite Hn, Nat.eqb_refl, optStrEq_refl. reflexivity.
  - rewrite (Hquiet st Hdone Hprev Hchanged). cbn [stateOf fst snd].
    rewrite (Hquiet st Hdone Hprev Hchanged). reflexivity.
Qed.

(** The toasts that timer callbacks hand to [addToast] when they fire are
    those of the callbacks that add a toast, whatever the state. *)
Lemma fireTimers_addedToasts (cbs : list TimerCallback) (st : State) :
  addedToasts (effectsOf (fireTimers cbs st))
  = omap (fun cb => match cb with CbAddToast t => Some t | _ => None end) cbs.
Proof.
  revert st. induction cbs as [|cb rest IH]; intros st; [reflexivity|].
  cbn [fireTimers omap option_bind list_omap]. unfold bind.
  destruct cb as [t|]; cbn [runTimer].
  - unfold emit. specialize (IH st).
    destruct (fireTimers rest st) as [[[] st2] e2]. cbn in *.
    rewrite IH. reflexivity.
  - unfold restoreScrollPosition. run_handler.
    destruct (scrollContainer st); run_handler.
    + specialize (IH (stateOf (setScrollContainer (Some (lastScrollPosition st)) st))).
      cbn in IH.
      destruct (fireTimers rest _) as [[[] st2] e2]. cbn in *. exact IH.
    + specialize (IH st).
      destruct (fireTimers rest st) as [[[] st2] e2]. cbn in *. exact IH.
Qed.

(** The whole trace of a reconciliation with the store of the mission on
    display: two timers at most, and no toast at once. *)
Lemma storeSyncEffect_trace (am : Mission) (m : string) (storeNotes : list Note)
    (st : State) :
  mission_id am = m -> mission_notes am = Some storeNotes ->
  initialLoadDone st = true -> previousMissionId st = Some m ->
  effectsOf (storeSyncEffect (Some am) m st)
  = if negb (length storeNotes =? length (notes st))
       || negb (JS.optStrEq (lastNoteId (notes st)) (lastNoteId storeNotes))
    then (if notificationThreshold <=? length storeNotes - length (notes st)
          then [SetTimeout (CbAddToast (newNotesToast
                                          (length storeNotes - length (notes st)))) 500]
          else [])
         ++ [SetTimeout CbRestoreScrollPosition 50]
    else [].
Proof.
  intros Hid Hnotes Hdone Hprev.
  assert (HZ : ∀ a b, Z.to_nat (0 `max` (Z.of_nat a - Z.of_nat b)) = a - b) by lia.
  unfold storeSyncEffect, preserveScrollPosition. rewrite Hnotes. run_handler.
  rewrite Hid, String.eqb_refl, Hdone. cbn [andb]. run_handler.
  rewrite Hprev, optStrEq_refl.
  destruct (negb (length storeNotes =? length (notes st))
            || negb (JS.optStrEq (lastNoteId (notes st)) (lastNoteId storeNotes)));
    [|reflexivity].
  rewrite HZ.
  destruct (scrollContainer st);
    destruct (notificationThreshold <=? length storeNotes - length (notes st));
    reflexivity.
Qed.

(** C4. A reconciliation with the store of the mission on display, after
    its initial load, shows no toast when the store holds fewer than 5
    notes more than the list, and exactly one toast, titled
    "New Research Notes", when it holds 5 or more notes more: the run of the
    effect hands nothing to [addToast] itself, it sets a timer of 500 ms for
    the toast in the second case only, and once the timers it has set have
    fired, [addToast] has been handed no toast in the first case and that
    one toast in the second. The effect run again against the same store
    produces nothing further. *)
Theorem store_sync_toast_threshold (am : Mission) (m : string)
    (storeNotes : list Note) (st : State) :
  mission_id am = m -> mission_notes am = Some storeNotes ->
  initialLoadDone st = true -> previousMissionId st = Some m ->
  (length storeNotes < length (notes st) + 5 ->
     toastsOf (effectsOf (storeSyncEffect (Some am) m st)) = []
     ∧ toastsShown (storeSyncEffect (Some am) m st) = [])
  ∧ (length (notes st) + 5 <= length storeNotes ->
     toastsOf (effectsOf (storeSyncEffect (Some am) m st))
       = [newNotesToast (length storeNotes - length (notes st))]
     ∧ toast_title (newNotesToast (length storeNotes - length (notes st)))
       = "New Research Notes"
     ∧ addedToasts (effectsOf (storeSyncEffect (Some am) m st)) = []
     ∧ timersOf (effectsOf (storeSyncEffect (Some am) m st))
       = [(500, CbAddToast (newNotesToast (length storeNotes - length (notes st))));
          (50, CbRestoreScrollPosition)]
     ∧ effectsOf (fireTimers (pendingTimers (effectsOf (storeSyncEffect (Some am) m st)))
                    (stateOf (storeSyncEffect (Some am) m st)))
       = [AddToast (newNotesToast (length storeNotes - length (notes st)))]
     ∧ toastsShown (storeSyncEffect (Some am) m st)
       = [newNotesToast (length storeNotes - length (notes st))])
  ∧ effectsOf (storeSyncEffect (Some am) m (stateOf (storeSyncEffect (Some am) m st)))
    = [].
Proof.
  intros Hid Hnotes Hdone Hprev.
  unfold toastsShown.
  rewrite !fireTimers_addedToasts.
  rewrite (storeSyncEffect_toasts am m storeNotes st Hnotes).
  rewrite (storeSyncEffect_settles am m storeNotes st Hid Hnotes Hdone Hprev).
  rewrite Hid, String.eqb_refl, Hdone, Hprev, optStrEq_refl. cbn [andb].
  pose proof (storeSyncEffect_trace am m storeNotes st Hid Hnotes Hdone Hprev) as Htrace.
  unfold notificationThreshold in *. split; [|split; [|reflexivity]].
  - intros Hlt. rewrite (proj2 (Nat.leb_gt _ _)) in * by lia.
    split; [reflexivity|]. rewrite Htrace.
    destruct (negb _ || negb _); reflexivity.
  - intros Hge. rewrite (proj2 (Nat.leb_le _ _)) in * by lia.
    assert (Hchanged : negb (length storeNotes =? length (notes st))
                       || negb (JS.optStrEq (lastNoteId (notes st))
                                  (lastNoteId storeNotes)) = true).
    { apply orb_true_iff. left. apply negb_true_iff, Nat.eqb_neq. lia. }
    rewrite Hchanged in Htrace.
    split; [reflexivity|]. split; [reflexivity|].
    assert (Hfire : ∀ s t,
              effectsOf (fireTimers [CbRestoreScrollPosition; CbAddToast t] s)
              = [AddToast t]).
    { intros s t. cbn [fireTimers runTimer]. unfold restoreScrollPosition.
      run_handler. destruct (scrollContainer s); reflexivity. }
    rewrite Htrace. cbn [app]. repeat split; try reflexivity.
    exact (Hfire _ _).
Qed.

Lemma store_sync_toast_threshold_witness :
  toastsShown (storeSyncEffect (Some (pushed 4)) "m1" oneNoteLoaded) = []
  ∧ toastsOf (effectsOf (storeSyncEffect (Some (pushed 5)) "m1" oneNoteLoaded))
    = [newNotesToast 5]
  ∧ toastsShown (storeSyncEffect (Some (pushed 5)) "m1" oneNoteLoaded)
    = [newNotesToast 5].
Proof.
  pose proof (store_sync_toast_threshold (pushed 4) "m1"
                (note1 :: map pushedNote (seq 1 4)) oneNoteLoaded
                eq_refl eq_refl eq_refl eq_refl) as (Hbelow & _ & _).
  pose proof (store_sync_toast_threshold (pushed 5) "m1"
                (note1 :: map pushedNote (seq 1 5)) oneNoteLoaded
                eq_refl eq_refl eq_refl eq_refl) as (_ & Hfrom & _).
  assert (H4 : length (note1 :: map pushedNote (seq 1 4)) < length (notes oneNoteLoaded) + 5)
    by (vm_compute; lia).
  assert (H5 : length (notes oneNoteLoaded) + 5 <= length (note1 :: map pushedNote (seq 1 5)))
    by (vm_compute; lia).
  destruct (Hbelow H4) as [_ Hnone].
  destruct (Hfrom H5) as (Hset & _ & _ & _ & _ & Hshown).
  split; [exact Hnone|]. split; [exact Hset | exact Hshown].
Defined.

(** *** Export *)

Lemma lines_nonempty (s : string) : JS.lines s ≠ [].
Proof.
  induction s as [|c s IH]; cbn; [discriminate|].
  destruct (Ascii.eqb c JS.newline); [discriminate|].
  destruct (JS.lines s); [contradiction | discriminate].
Qed.

(** Splitting into lines distributes over a line break. *)
Lemma lines_app_newline (a b : string) :
  JS.lines (a +:+ String JS.newline b) = JS.lines a ++ JS.lines b.
Proof.
  induction a as [|c a IH]; [reflexivity|].
  change (JS.lines (String c a +:+ String JS.newline b))
    with (if Ascii.eqb c JS.newline
          then EmptyString :: JS.lines (a +:+ String JS.newline b)
          else match JS.lines (a +:+ String JS.newline b) with
               | [] => [String c EmptyString]
               | l :: ls => String c l :: ls
               end).
  change (JS.lines (String c a))
    with (if Ascii.eqb c JS.newline then EmptyString :: JS.lines a
          else match JS.lines a with
               | [] => [String c EmptyString]
               | l :: ls => String c l :: ls
               end).
  rewrite IH.
  destruct (Ascii.eqb c JS.newline); [reflexivity|].
  pose proof (lines_nonempty a) as Hne.
  destruct (JS.lines a); [contradiction | reflexivity].
Qed.

Lemma lines_app_nl (a b : string) :
  JS.lines (a +:+ JS.nl +:+ b) = JS.lines a ++ JS.lines b.
Proof. exact (lines_app_newline a b). Qed.

Lemma delimitedEntries_app_nl (a b : string) :
  delimitedEntries (a +:+ JS.nl +:+ b) = delimitedEntries a + delimitedEntries b.
Proof.
  unfold delimitedEntries. rewrite lines_app_nl, List.filter_app, length_app.
  reflexivity.
Qed.

Lemma delimitedEntries_exportEntry (fmt : string -> string) (note : Note) :
  delimitedEntries (exportEntry fmt note) = delimitedEntries (entryBody fmt note) + 1.
Proof. unfold exportEntry. rewrite delimitedEntries_app_nl. reflexivity. Qed.

Lemma delimitedEntries_notesText (fmt : string -> string) (ns : list Note) :
  delimitedEntries (notesText fmt ns) = length ns + strayDelimiters fmt ns.
Proof.
  unfold notesText, strayDelimiters.
  induction ns as [|n ns IH]; [reflexivity|].
  destruct ns as [|n' ns].
  - cbn [map JS.join sum_list_with length id].
    rewrite delimitedEntries_exportEntry. lia.
  - change (JS.join JS.nl (map (exportEntry fmt) (n :: n' :: ns)))
      with (exportEntry fmt n +:+ JS.nl +:+ JS.join JS.nl (map (exportEntry fmt) (n' :: ns))).
    rewrite delimitedEntries_app_nl, IH, delimitedEntries_exportEntry.
    cbn [map sum_list_with length id]. lia.
Qed.

Lemma singleLine_app (a b : string) :
  JS.singleLine (a +:+ b) = JS.singleLine a && JS.singleLine b.
Proof.
  induction a as [|c a IH]; [reflexivity|].
  change (JS.singleLine (String c a +:+ b))
    with (negb (Ascii.eqb c JS.newline) && JS.singleLine (a +:+ b)).
  rewrite IH. apply andb_assoc.
Qed.

Lemma lines_singleLine (s : string) : JS.singleLine s = true -> JS.lines s = [s].
Proof.
  induction s as [|c s IH]; [reflexivity|].
  cbn. intros H. apply andb_true_iff in H as [Hc Hs].
  apply negb_true_iff in Hc. rewrite Hc, (IH Hs). reflexivity.
Qed.

Lemma orElse_singleLine (o : option string) (d : string) :
  JS.singleLine (JS.orElse o "") = true -> JS.singleLine d = true ->
  JS.singleLine (JS.orElse o d) = true.
Proof.
  destruct o as [[|c t]|]; cbn; intros Ho Hd; assumption.
Qed.

Lemma entryBody_wellSeparated (fmt : string -> string) (note : Note) :
  wellSeparated fmt note = true -> delimitedEntries (entryBody fmt note) = 0.
Proof.
  unfold wellSeparated. rewrite !andb_true_iff, Nat.eqb_eq.
  intros [[[Hc Ht] Hs] Hu].
  unfold entryBody. rewrite !delimitedEntries_app_nl, Hc.
  assert (Hh : delimitedEntries (entryHeader fmt note) = 0).
  { unfold delimitedEntries. rewrite lines_singleLine; [reflexivity|].
    unfold entryHeader. rewrite !singleLine_app, Ht.
    rewrite (orElse_singleLine _ "Unknown source" Hs); reflexivity. }
  assert (Hl : delimitedEntries (entryUrlLine note) = 0).
  { unfold entryUrlLine.
    destruct (JS.truthyStr (JS.orElse (url note) "")); [|reflexivity].
    unfold delimitedEntries. rewrite lines_singleLine; [reflexivity|].
    rewrite singleLine_app, Hu. reflexivity. }
  rewrite Hh, Hl. reflexivity.
Qed.

Lemma strayDelimiters_wellSeparated (fmt : string -> string) (ns : list Note) :
  forallb (wellSeparated fmt) ns = true -> strayDelimiters fmt ns = 0.
Proof.
  unfold strayDelimiters.
  induction ns as [|n ns IH]; [reflexivity|].
  cbn. intros H. apply andb_true_iff in H as [Hn Hns].
  rewrite (entryBody_wellSeparated fmt n Hn), (IH Hns). reflexivity.
Qed.

(** C6, as the code has it. Exporting offers one download, named
    mission-notes-{first 8 characters of the mission id}.txt, whose text is
    the entries of the filtered notes, one per note and in their order,
    each ending with the delimiter line. Read back, the text holds one
    delimiter line per exported note and one more for every delimiter line
    inside an entry's own text; so it holds exactly as many as there are
    exported notes when every exported note is well separated. *)
Theorem export_delimited_entries (fmt : string -> string) (m : string) (st : State) :
  downloadsOf (effectsOf (handleExportNotes fmt m st))
    = [("mission-notes-" +:+ JS.sliceTo 8 m +:+ ".txt",
        JS.join JS.nl (map (exportEntry fmt) (filteredNotes st)))]
  ∧ delimitedEntries (JS.join JS.nl (map (exportEntry fmt) (filteredNotes st)))
    = length (filteredNotes st) + strayDelimiters fmt (filteredNotes st)
  ∧ (forallb (wellSeparated fmt) (filteredNotes st) = true ->
     delimitedEntries (JS.join JS.nl (map (exportEntry fmt) (filteredNotes st)))
     = length (filteredNotes st)).
Proof.
  split; [reflexivity|].
  pose proof (delimitedEntries_notesText fmt (filteredNotes st)) as Hcount.
  unfold notesText in Hcount. split; [exact Hcount|].
  intros Hsep. rewrite Hcount, (strayDelimiters_wellSeparated fmt _ Hsep). lia.
Qed.

Lemma export_delimited_entries_witness :
  delimitedEntries (JS.join JS.nl (map (exportEntry (fun ts => ts))
                                     (filteredNotes (showing [note1; note2]))))
  = length (filteredNotes (showing [note1; note2])).
Proof.
  apply (export_delimited_entries (fun ts => ts) "0123456789abcdef"
           (showing [note1; note2])).
  reflexivity.
Defined.

(** C6 as stated fails: one exported note whose content holds a line [---]
    gives a text with two delimited entries. *)
Lemma export_of_ruled_note_has_two_delimiters :
  length (filteredNotes (showing [ruledNote])) = 1
  ∧ map (fun d => delimitedEntries d.2)
      (downloadsOf (effectsOf (handleExportNotes (fun ts => ts) "0123456789abcdef"
                                 (showing [ruledNote]))))
    = [2]
  ∧ ¬ (delimitedEntries (notesText (fun ts => ts) (filteredNotes (showing [ruledNote])))
       = length (filteredNotes (showing [ruledNote]))).
Proof.
  split; [reflexivity|]. split; [reflexivity|].
  vm_compute. discriminate.
Qed.

End NotesTabSpec.

Module WritingChatPanelSpec.
Import WritingChatPanel ChatFixtures.

Lemma trimStart_empty (s : string) :
  JS.trimStart s = "" <-> JS.allWhiteSpace s = true.
Proof.
  induction s as [|c s IH]; cbn; [tauto|].
  destruct (JS.isWhiteSpace c); cbn; [exact IH|].
  split; discriminate.
Qed.

Lemma trimEnd_empty (s : string) :
  JS.trimEnd s = "" <-> JS.allWhiteSpace s = true.
Proof.
  induction s as [|c s IH]; cbn; [tauto|].
  destruct (JS.trimEnd s) eqn:Hend.
  - destruct (JS.isWhiteSpace c); cbn; [tauto|]. split; discriminate.
  - split; [discriminate|]. intros H. apply andb_true_iff in H as [_ H].
    apply IH in H. discriminate H.
Qed.

Lemma trimStart_head (s : string) :
  match JS.trimStart s with
  | EmptyString => True
  | String c _ => JS.isWhiteSpace c = false
  end.
Proof.
  induction s as [|c s IH]; cbn; [exact I|].
  destruct (JS.isWhiteSpace c) eqn:Hc; [exact IH | exact Hc].
Qed.

Lemma trim_falsy (s : string) :
  JS.truthyStr (JS.trim s) = negb (JS.allWhiteSpace s).
Proof.
  unfold JS.trim.
  destruct (JS.allWhiteSpace s) eqn:Hall.
  - apply trimStart_empty in Hall. rewrite Hall. reflexivity.
  - destruct (JS.trimEnd (JS.trimStart s)) eqn:Htrim; [|reflexivity].
    apply trimEnd_empty in Htrim.
    pose proof (trimStart_head s) as Hhead.
    destruct (JS.trimStart s) as [|c t] eqn:Hstart.
    + apply trimStart_empty in Hstart. congruence.
    + cbn in Htrim. rewrite Hhead in Htrim. discriminate Htrim.
Qed.

Lemma handleSendMessage_request_blocked (v : StoreView) (s : State) :
  JS.allWhiteSpace (message s) = true ∨ isLoading v = true ->
  handleSendMessage_request v s = (false, s, []).
Proof.
  intros H. unfold handleSendMessage_request. run_handler. rewrite trim_falsy.
  destruct H as [-> | ->]; [reflexivity|].
  rewrite orb_true_r. reflexivity.
Qed.

Lemma handleSendMessage_request_sends (v : StoreView) (s : State) :
  JS.allWhiteSpace (message s) = false -> isLoading v = false ->
  handleSendMessage_request v s
  = (true,
     {| message := ""; selectedGroupId := selectedGroupId s;
        searchSettings := searchSettings s |},
     [SendMessage (JS.trim (message s)) (toolOptions s)]).
Proof.
  intros Hws Hload. unfold handleSendMessage_request. run_handler.
  rewrite trim_falsy, Hws, Hload. reflexivity.
Qed.

(** C9. Submitting a text that is empty or white space only, or submitting
    while a response is loading, sends nothing and changes no state. A
    submission that passes hands the trimmed text to [sendMessage], and the
    input is already empty when that request is in flight. *)
Theorem handleSendMessage_guard (v : StoreView) (r : Settled) (s : State) :
  (JS.allWhiteSpace (message s) = true ∨ isLoading v = true ->
     handleSendMessage_request v s = (false, s, [])
     ∧ handleSendMessage v r s = (tt, s, []))
  ∧ (JS.allWhiteSpace (message s) = false -> isLoading v = false ->
     handleSendMessage_request v s
     = (true,
        {| message := ""; selectedGroupId := selectedGroupId s;
           searchSettings := searchSettings s |},
        [SendMessage (JS.trim (message s)) (toolOptions s)])).
Proof.
  split.
  - intros H.
    pose proof (handleSendMessage_request_blocked v s H) as Hreq.
    split; [exact Hreq|].
    unfold handleSendMessage, bind. rewrite Hreq. reflexivity.
  - apply handleSendMessage_request_sends.
Qed.

Lemma handleSendMessage_guard_witness :
  handleSendMessage idleStore Rejected (typed "   " false)
    = (tt, typed "   " false, [])
  ∧ handleSendMessage_request idleStore (typed "  hello  " false)
    = (true, typed "" false, [SendMessage "hello" (toolOptions (typed "" false))]).
Proof.
  split.
  - apply (handleSendMessage_guard idleStore Rejected (typed "   " false)).
    left. reflexivity.
  - apply (handleSendMessage_guard idleStore Rejected (typed "  hello  " false));
      reflexivity.
Defined.



End WritingChatPanelSpec.

Module ErrorHandlingSpec.

Lemma loadMoreNotes_rejected_displayed (m : string) (st : NotesTab.State) :
  NotesTab.displayed (stateOf (NotesTab.loadMoreNotes m NotesTab.Rejected st)) = NotesTab.displayed st.
Proof.
  unfold NotesTab.loadMoreNotes, NotesTab.loadMoreNotes_request. run_handler.
  destruct (negb (NotesTab.hasMoreNotes st) || NotesTab.isLoadingMore st);
    reflexivity.
Qed.

Lemma loadAllNotes_rejected_displayed (m : string) (st : NotesTab.State) :
  NotesTab.displayed (stateOf (NotesTab.loadAllNotes m NotesTab.Rejected st)) = NotesTab.displayed st.
Proof.
  unfold NotesTab.loadAllNotes, NotesTab.loadAllNotes_request. run_handler.
  destruct (negb (NotesTab.hasMoreNotes st)); reflexivity.
Qed.

Lemma loadInitialNotes_rejected_displayed (m : string) (st : NotesTab.State) :
  NotesTab.displayed (stateOf (NotesTab.loadInitialNotes m NotesTab.Rejected st))
  = NotesTab.displayed (stateOf (NotesTab.loadInitialNotes_request m st)).
Proof.
  unfold NotesTab.loadInitialNotes, bind.
  destruct (NotesTab.loadInitialNotes_request m st) as [[started st1] e1].
  destruct started; reflexivity.
Qed.

(** A submission that passes the guard and whose [sendMessage] fails. *)
Lemma handleSendMessage_rejected (v : WritingChatPanel.StoreView)
    (s : WritingChatPanel.State) :
  JS.allWhiteSpace (WritingChatPanel.message s) = false ->
  WritingChatPanel.isLoading v = false ->
  WritingChatPanel.handleSendMessage v WritingChatPanel.Rejected s
  = (tt,
     {| WritingChatPanel.message := "";
        WritingChatPanel.selectedGroupId := WritingChatPanel.selectedGroupId s;
        WritingChatPanel.searchSettings := WritingChatPanel.searchSettings s |},
     [WritingChatPanel.SendMessage (JS.trim (WritingChatPanel.message s))
        (WritingChatPanel.toolOptions s);
      WritingChatPanel.ConsoleError "Error sending writing message:";
      WritingChatPanel.AddToast
        {| toast_type := ToastError; toast_title := "Chat Error";
           toast_message := "Failed to send message. Please try again.";
           toast_duration := Some 5000 |}]).
Proof.
  intros Hws Hload. unfold WritingChatPanel.handleSendMessage, bind.
  rewrite (WritingChatPanelSpec.handleSendMessage_request_sends v s Hws Hload).
  reflexivity.
Qed.

Lemma loadInitialNotes_rejected_trace (m : string) (st : NotesTab.State) :
  NotesTab.previousMissionId st ≠ Some m ->
  effectsOf (NotesTab.loadInitialNotes m NotesTab.Rejected st)
  = [NotesTab.ApiGet (NotesTab.notesPath m 100 0);
     NotesTab.ConsoleError "Failed to fetch initial notes:"]
  ∧ NotesTab.isLoading (stateOf (NotesTab.loadInitialNotes m NotesTab.Rejected st))
    = false
  ∧ NotesTab.initialLoadDone (stateOf (NotesTab.loadInitialNotes m NotesTab.Rejected st))
    = false.
Proof.
  intros Hother.
  unfold NotesTab.loadInitialNotes, NotesTab.loadInitialNotes_request. run_handler.
  destruct (JS.optStrEq (NotesTab.previousMissionId st) (Some m)) eqn:Heq.
  - apply NotesTabSpec.optStrEq_eq in Heq. contradiction.
  - repeat split.
Qed.

Lemma loadMoreNotes_rejected_trace (m : string) (st : NotesTab.State) :
  NotesTab.hasMoreNotes st = true -> NotesTab.isLoadingMore st = false ->
  effectsOf (NotesTab.loadMoreNotes m NotesTab.Rejected st)
  = [NotesTab.ApiGet (NotesTab.notesPath m 100 (length (NotesTab.notes st)));
     NotesTab.ConsoleError "Failed to load more notes:"]
  ∧ NotesTab.isLoadingMore (stateOf (NotesTab.loadMoreNotes m NotesTab.Rejected st))
    = false.
Proof.
  intros Hmore Hbusy.
  unfold NotesTab.loadMoreNotes, NotesTab.loadMoreNotes_request. run_handler.
  rewrite Hmore, Hbusy. split; reflexivity.
Qed.

Lemma loadAllNotes_rejected_trace (m : string) (st : NotesTab.State) :
  NotesTab.hasMoreNotes st = true ->
  effectsOf (NotesTab.loadAllNotes m NotesTab.Rejected st)
  = [NotesTab.ApiGet (NotesTab.notesPath m 999999 0);
     NotesTab.ConsoleError "Failed to load all notes:"]
  ∧ NotesTab.isLoading (stateOf (NotesTab.loadAllNotes m NotesTab.Rejected st))
    = false.
Proof.
  intros Hmore.
  unfold NotesTab.loadAllNotes, NotesTab.loadAllNotes_request. run_handler.
  rewrite Hmore. split; reflexivity.
Qed.

(** C7. A notes fetch that fails, in the initial load, in load-more or in
    load-all, is caught where it was awaited: the handler runs to its end,
    writes one line to the console, shows no toast, and leaves the notes on
    display, the total and the has-more flag as the failure found them.
    For load-more and load-all that is as they were when the handler was
    invoked; for the initial load it is as the handler had them when it
    sent the request. Of a handler that has sent its request, the whole
    trace is that request and the console line, and its busy flag is down
    again at the end. A failing send, regeneration or deletion of a message
    is caught as well: the handler, from its invocation to its end, hands
    the request to the store, writes one line to the console and surfaces
    one error toast that goes away after 5 seconds; regeneration and
    deletion leave the panel's state as they found it, and a failed send
    leaves the input empty, as it was from the moment of sending. *)
Theorem failures_are_caught (m messageId : string) (n : nat)
    (st : NotesTab.State) (v : WritingChatPanel.StoreView)
    (s : WritingChatPanel.State) :
  (NotesTab.displayed (stateOf (NotesTab.loadInitialNotes_settled m NotesTab.Rejected st))
     = NotesTab.displayed st
   ∧ effectsOf (NotesTab.loadInitialNotes_settled m NotesTab.Rejected st)
     = [NotesTab.ConsoleError "Failed to fetch initial notes:"]
   ∧ NotesTab.displayed (stateOf (NotesTab.loadInitialNotes m NotesTab.Rejected st))
     = NotesTab.displayed (stateOf (NotesTab.loadInitialNotes_request m st))
   ∧ (NotesTab.previousMissionId st ≠ Some m ->
      effectsOf (NotesTab.loadInitialNotes m NotesTab.Rejected st)
      = [NotesTab.ApiGet (NotesTab.notesPath m 100 0);
         NotesTab.ConsoleError "Failed to fetch initial notes:"]
      ∧ NotesTab.isLoading (stateOf (NotesTab.loadInitialNotes m NotesTab.Rejected st))
        = false))
  ∧ (NotesTab.displayed (stateOf (NotesTab.loadMoreNotes_settled m n NotesTab.Rejected st))
       = NotesTab.displayed st
     ∧ effectsOf (NotesTab.loadMoreNotes_settled m n NotesTab.Rejected st)
       = [NotesTab.ConsoleError "Failed to load more notes:"]
     ∧ NotesTab.displayed (stateOf (NotesTab.loadMoreNotes m NotesTab.Rejected st))
       = NotesTab.displayed st
     ∧ (NotesTab.hasMoreNotes st = true -> NotesTab.isLoadingMore st = false ->
        effectsOf (NotesTab.loadMoreNotes m NotesTab.Rejected st)
        = [NotesTab.ApiGet (NotesTab.notesPath m 100 (length (NotesTab.notes st)));
           NotesTab.ConsoleError "Failed to load more notes:"]
        ∧ NotesTab.isLoadingMore (stateOf (NotesTab.loadMoreNotes m NotesTab.Rejected st))
          = false))
  ∧ (NotesTab.displayed (stateOf (NotesTab.loadAllNotes_settled m NotesTab.Rejected st))
       = NotesTab.displayed st
     ∧ effectsOf (NotesTab.loadAllNotes_settled m NotesTab.Rejected st)
       = [NotesTab.ConsoleError "Failed to load all notes:"]
     ∧ NotesTab.displayed (stateOf (NotesTab.loadAllNotes m NotesTab.Rejected st))
       = NotesTab.displayed st
     ∧ (NotesTab.hasMoreNotes st = true ->
        effectsOf (NotesTab.loadAllNotes m NotesTab.Rejected st)
        = [NotesTab.ApiGet (NotesTab.notesPath m 999999 0);
           NotesTab.ConsoleError "Failed to load all notes:"]
        ∧ NotesTab.isLoading (stateOf (NotesTab.loadAllNotes m NotesTab.Rejected st))
          = false))
  ∧ WritingChatPanel.handleSendMessage_settled WritingChatPanel.Rejected s
    = (tt, s,
       [WritingChatPanel.ConsoleError "Error sending writing message:";
        WritingChatPanel.AddToast
          {| toast_type := ToastError; toast_title := "Chat Error";
             toast_message := "Failed to send message. Please try again.";
             toast_duration := Some 5000 |}])
  ∧ (JS.allWhiteSpace (WritingChatPanel.message s) = false ->
     WritingChatPanel.isLoading v = false ->
     WritingChatPanel.handleSendMessage v WritingChatPanel.Rejected s
     = (tt,
        {| WritingChatPanel.message := "";
           WritingChatPanel.selectedGroupId := WritingChatPanel.selectedGroupId s;
           WritingChatPanel.searchSettings := WritingChatPanel.searchSettings s |},
        [WritingChatPanel.SendMessage (JS.trim (WritingChatPanel.message s))
           (WritingChatPanel.toolOptions s);
         WritingChatPanel.ConsoleError "Error sending writing message:";
         WritingChatPanel.AddToast
           {| toast_type := ToastError; toast_title := "Chat Error";
              toast_message := "Failed to send message. Please try again.";
              toast_duration := Some 5000 |}]))
  ∧ WritingChatPanel.handleRegenerate messageId WritingChatPanel.Rejected s
    = (tt, s,
       [WritingChatPanel.RegenerateMessage messageId (WritingChatPanel.toolOptions s);
        WritingChatPanel.ConsoleError "Error regenerating message:";
        WritingChatPanel.AddToast
          {| toast_type := ToastError; toast_title := "Regeneration Error";
             toast_message := "Failed to regenerate response. Please try again.";
             toast_duration := Some 5000 |}])
  ∧ WritingChatPanel.onDelete messageId WritingChatPanel.Rejected s
    = (tt, s,
       [WritingChatPanel.RemoveMessage messageId;
        WritingChatPanel.ConsoleError "Failed to delete message:";
        WritingChatPanel.AddToast
          {| toast_type := ToastError; toast_title := "Delete Failed";
             toast_message := "Failed to delete message. Please try again.";
             toast_duration := Some 5000 |}]).
Proof.
  split; [|split; [|split; [|split; [|split; [|split]]]]].
  - split; [reflexivity|]. split; [reflexivity|].
    split; [apply loadInitialNotes_rejected_displayed|].
    intros Hother.
    destruct (loadInitialNotes_rejected_trace m st Hother) as (He & Hl & _).
    split; assumption.
  - split; [reflexivity|]. split; [reflexivity|].
    split; [apply loadMoreNotes_rejected_displayed|].
    apply loadMoreNotes_rejected_trace.
  - split; [reflexivity|]. split; [reflexivity|].
    split; [apply loadAllNotes_rejected_displayed|].
    apply loadAllNotes_rejected_trace.
  - reflexivity.
  - apply handleSendMessage_rejected.
  - reflexivity.
  - reflexivity.
Qed.

Lemma failures_are_caught_witness :
  effectsOf (NotesTab.loadInitialNotes "m1" NotesTab.Rejected NotesTab.initialState)
  = [NotesTab.ApiGet "/api/missions/m1/notes?limit=100&offset=0";
     NotesTab.ConsoleError "Failed to fetch initial notes:"]
  ∧ effectsOf (NotesTab.loadMoreNotes "m1" NotesTab.Rejected NotesFixtures.morePagesLeft)
    = [NotesTab.ApiGet "/api/missions/m1/notes?limit=100&offset=1";
       NotesTab.ConsoleError "Failed to load more notes:"]
  ∧ effectsOf (NotesTab.loadAllNotes "m1" NotesTab.Rejected NotesFixtures.morePagesLeft)
    = [NotesTab.ApiGet "/api/missions/m1/notes?limit=999999&offset=0";
       NotesTab.ConsoleError "Failed to load all notes:"]
  ∧ WritingChatPanel.toastsOf
      (effectsOf (WritingChatPanel.handleSendMessage ChatFixtures.idleStore
                    WritingChatPanel.Rejected (ChatFixtures.typed "  hello  " false)))
    = [WritingChatPanel.errorToast "Chat Error"
         "Failed to send message. Please try again."].
Proof.
  pose proof (failures_are_caught "m1" "msg-1" 1 NotesTab.initialState
                ChatFixtures.idleStore (ChatFixtures.typed "  hello  " false))
    as ((_ & _ & _ & Hinitial) & _ & _ & _ & Hsend & _).
  pose proof (failures_are_caught "m1" "msg-1" 1 NotesFixtures.morePagesLeft
                ChatFixtures.idleStore (ChatFixtures.typed "  hello  " false))
    as (_ & (_ & _ & _ & Hmore) & (_ & _ & _ & Hall) & _).
  assert (Hother : NotesTab.previousMissionId NotesTab.initialState ≠ Some "m1")
    by discriminate.
  split; [exact (proj1 (Hinitial Hother))|].
  split; [exact (proj1 (Hmore eq_refl eq_refl))|].
  split; [exact (proj1 (Hall eq_refl))|].
  rewrite (Hsend eq_refl eq_refl). reflexivity.
Defined.

End ErrorHandlingSpec.

(** * Further properties of the components *)

Module JSFacts.

Lemma lowerChar_idempotent (c : ascii) : JS.lowerChar (JS.lowerChar c) = JS.lowerChar c.
Proof. destruct c as [[] [] [] [] [] [] [] []]; reflexivity. Qed.

Lemma toLowerCase_idempotent (s : string) :
  JS.toLowerCase (JS.toLowerCase s) = JS.toLowerCase s.
Proof.
  induction s as [|c s IH]; [reflexivity|].
  cbn [JS.toLowerCase]. rewrite lowerChar_idempotent, IH. reflexivity.
Qed.

Lemma toLowerCase_empty (s : string) :
  String.eqb (JS.toLowerCase s) "" = String.eqb s "".
Proof. destruct s; reflexivity. Qed.

End JSFacts.

Module AgentActivityLogExtra.
Import AgentActivityLog AgentActivityLogView.

Lemma afterToggles_cons (index : nat) (clicks : list nat) (expanded : gset nat) :
  afterToggles (index :: clicks) expanded
  = afterToggles clicks (toggleLogExpansion index expanded).
Proof. reflexivity. Qed.

(** After any run of clicks on the cards, an entry is expanded exactly when
    its expansion at the start and the number of clicks on it, odd or even,
    say so: an odd number of clicks flips it, an even number leaves it. *)
Theorem afterToggles_parity (clicks : list nat) (expanded : gset nat) (j : nat) :
  isExpanded (afterToggles clicks expanded) j
  = xorb (isExpanded expanded j) (Nat.odd (count_occ Nat.eq_dec clicks j)).
Proof.
  revert expanded.
  induction clicks as [|index clicks IH]; intros expanded.
  - cbn. rewrite xorb_false_r. reflexivity.
  - rewrite afterToggles_cons, IH, AgentActivityLogSpec.isExpanded_toggle.
    cbn [count_occ].
    destruct (Nat.eq_dec index j) as [->|Hne].
    + rewrite decide_True by reflexivity.
      rewrite Nat.odd_succ, <- Nat.negb_odd.
      destruct (isExpanded expanded j), (Nat.odd (count_occ Nat.eq_dec clicks j));
        reflexivity.
    + rewrite decide_False by congruence. reflexivity.
Qed.

Lemma renderLogs_app (expanded : gset nat) (p : Props)
    (older newer : list ExecutionLogEntry) :
  renderLogs expanded (withLogs p (older ++ newer))
  = renderLogs expanded (withLogs p older)
    ++ imap (fun index log => renderLogEntry expanded log (length older + index)) newer.
Proof.
  unfold renderLogs. cbn [logs withLogs].
  exact (imap_app (fun index log => renderLogEntry expanded log index) older newer).
Qed.

(** Expansion belongs to the position in the list, not to the log entry.
    A click on the card of an entry flips the expansion that this card
    shows. When entries then arrive at the front of the list, the entry
    that was clicked moves to a later position and is shown there with the
    expansion of that position, which the click has not touched, while the
    card now at the clicked position, of another entry, shows the flipped
    expansion. Entries that arrive at the end leave the cards before them
    as they were. *)
Theorem expansion_goes_by_position (expanded : gset nat) (p : Props)
    (arrived : list ExecutionLogEntry) (index : nat) (log : ExecutionLogEntry) :
  logs p !! index = Some log ->
  arrived ≠ [] ->
  renderLogs (toggleLogExpansion index expanded) p !! index
    = Some {| card_key := index; card_log := log;
              card_isExpanded := negb (isExpanded expanded index);
              card_renderer := logRenderer log |}
  ∧ renderLogs (toggleLogExpansion index expanded) (withLogs p (arrived ++ logs p))
      !! (length arrived + index)
    = Some {| card_key := length arrived + index; card_log := log;
              card_isExpanded := isExpanded expanded (length arrived + index);
              card_renderer := logRenderer log |}
  ∧ card_isExpanded
      <$> renderLogs (toggleLogExpansion index expanded) (withLogs p (arrived ++ logs p))
            !! index
    = Some (negb (isExpanded expanded index))
  ∧ take (length (logs p))
      (renderLogs (toggleLogExpansion index expanded) (withLogs p (logs p ++ arrived)))
    = renderLogs (toggleLogExpansion index expanded) p.
Proof.
  intros Hlog Hsome.
  assert (Hfront : 0 < length arrived) by (destruct arrived; [contradiction | cbn; lia]).
  split; [|split; [|split]].
  - unfold renderLogs. rewrite list_lookup_imap, Hlog. cbn [fmap option_fmap option_map].
    unfold renderLogEntry.
    rewrite AgentActivityLogSpec.isExpanded_toggle, decide_True by reflexivity.
    reflexivity.
  - rewrite renderLogs_app.
    assert (Hlen : length (renderLogs (toggleLogExpansion index expanded)
                             (withLogs p arrived)) = length arrived).
    { unfold renderLogs. apply length_imap. }
    rewrite lookup_app_r by lia. rewrite Hlen, Nat.add_comm, Nat.add_sub.
    rewrite list_lookup_imap, Hlog. cbn [fmap option_fmap option_map].
    unfold renderLogEntry.
    rewrite AgentActivityLogSpec.isExpanded_toggle, decide_False by lia.
    rewrite (Nat.add_comm index). reflexivity.
  - unfold renderLogs. cbn [logs withLogs]. rewrite list_lookup_imap.
    destruct ((arrived ++ logs p) !! index) as [log'|] eqn:Hat.
    + cbn. rewrite AgentActivityLogSpec.isExpanded_toggle, decide_True by reflexivity.
      reflexivity.
    + apply lookup_ge_None in Hat. rewrite length_app in Hat.
      apply lookup_lt_Some in Hlog. lia.
  - rewrite renderLogs_app.
    assert (Hlen : length (renderLogs (toggleLogExpansion index expanded)
                             (withLogs p (logs p))) = length (logs p)).
    { unfold renderLogs. apply length_imap. }
    rewrite take_app_le by lia. rewrite take_ge by lia. reflexivity.
Qed.

Lemma expansion_goes_by_position_witness :
  card_isExpanded
    <$> renderLogs (toggleLogExpansion 0 ∅) twoOfFive !! 0
  = Some (negb (isExpanded ∅ 0))
  ∧ card_isExpanded
      <$> renderLogs (toggleLogExpansion 0 ∅)
            (withLogs twoOfFive (earlierEntry :: logs twoOfFive)) !! 1
    = Some (isExpanded ∅ 1)
  ∧ card_isExpanded
      <$> renderLogs (toggleLogExpansion 0 ∅)
            (withLogs twoOfFive (earlierEntry :: logs twoOfFive)) !! 0
    = Some (negb (isExpanded ∅ 0)).
Proof.
  assert (Hsome : [earlierEntry] ≠ []) by discriminate.
  destruct (expansion_goes_by_position ∅ twoOfFive [earlierEntry] 0
              {| log_id := Some "l1"; timestamp := "t1"; agent_name := "ResearchAgent";
                 action := "search"; status := StatusSuccess |}
              eq_refl Hsome) as (Hclicked & Hmoved & Hplace & _).
  split; [rewrite Hclicked; reflexivity|].
  split; [|exact Hplace].
  change (earlierEntry :: logs twoOfFive) with ([earlierEntry] ++ logs twoOfFive).
  change 1 with (length [earlierEntry] + 0).
  rewrite Hmoved. reflexivity.
Defined.

(** The renderer of a log entry does not depend on the letter case of the
    agent's name: two entries whose agent names differ in case only get
    the same renderer, and an entry gets the renderer of its lower-cased
    name. *)
Theorem logRenderer_ignores_case (log log' : ExecutionLogEntry) :
  (JS.toLowerCase (agent_name log) = JS.toLowerCase (agent_name log') ->
   logRenderer log = logRenderer log')
  ∧ logRenderer (lowered log) = logRenderer log.
Proof.
  split.
  - intros Hsame. unfold logRenderer. rewrite Hsame. reflexivity.
  - unfold logRenderer, lowered. cbn [agent_name].
    rewrite JSFacts.toLowerCase_idempotent. reflexivity.
Qed.

Lemma logRenderer_ignores_case_witness :
  logRenderer {| log_id := None; timestamp := "t"; agent_name := "PLANNINGAgent";
                 action := "plan"; status := StatusSuccess |}
  = logRenderer {| log_id := None; timestamp := "t"; agent_name := "PlanningAGENT";
                   action := "plan"; status := StatusSuccess |}.
Proof.
  refine (proj1 (logRenderer_ignores_case
                   {| log_id := None; timestamp := "t"; agent_name := "PLANNINGAgent";
                      action := "plan"; status := StatusSuccess |}
                   {| log_id := None; timestamp := "t"; agent_name := "PlanningAGENT";
                      action := "plan"; status := StatusSuccess |}) _).
  reflexivity.
Defined.

(** The load controls of the log are never shown dead: whenever they are
    rendered and no page is loading, the Load More button is enabled. The
    test [totalLogs > 0] of the source adds nothing to the comparison that
    follows it. *)
Theorem log_load_more_enabled_when_shown (p : Props) :
  loadControlsShown p
    = (hasMore p || (length (logs p) <? totalLogs p)) && onLoadMore p
  ∧ (loadControlsShown p = true -> isLoadingMore p = false ->
     loadMoreDisabled p = false).
Proof.
  unfold loadControlsShown, loadMoreDisabled. split.
  - destruct (length (logs p) <? totalLogs p) eqn:Hlt.
    + apply Nat.ltb_lt in Hlt. rewrite (proj2 (Nat.ltb_lt 0 (totalLogs p))) by lia.
      reflexivity.
    + rewrite andb_false_r. reflexivity.
  - intros Hshown Hidle. rewrite Hidle. cbn [orb].
    apply andb_true_iff in Hshown as [Hshown _].
    destruct (hasMore p); [reflexivity|]. cbn [orb negb andb] in *.
    apply andb_true_iff in Hshown as [_ Hlt]. apply Nat.ltb_lt in Hlt.
    apply Nat.leb_gt. exact Hlt.
Qed.

Lemma log_load_more_enabled_when_shown_witness :
  loadControlsShown twoOfFive = true ∧ loadMoreDisabled twoOfFive = false.
Proof.
  split; [reflexivity|].
  apply (log_load_more_enabled_when_shown twoOfFive); reflexivity.
Defined.

(** The list shows a placeholder exactly when there are no entries, and
    then exactly one of the two: never both, and never beside a card. *)
Theorem log_placeholders_exclusive (expanded : gset nat) (p : Props) :
  xorb (loadingPlaceholderShown p) (emptyPlaceholderShown p)
    = (length (renderLogs expanded p) =? 0)
  ∧ loadingPlaceholderShown p && emptyPlaceholderShown p = false.
Proof.
  unfold loadingPlaceholderShown, emptyPlaceholderShown, renderLogs.
  rewrite length_imap.
  destruct (isLoading p), (length (logs p) =? 0); split; reflexivity.
Qed.

End AgentActivityLogExtra.

Module NotesTabExtra.
Import NotesTab NotesTabView NotesFixtures.

(** Splits a handler of the tab along the tests it makes. *)
Ltac by_cases :=
  repeat (run_handler;
          match goal with
          | |- context [match ?x with Some _ => _ | None => _ end] => destruct x
          | |- context [if ?b then _ else _] => destruct b eqn:?
          end);
  run_handler.

(** *** Filter, search and badges *)

Lemma matchesFilter_web (note : Note) : matchesFilter Web note = JS.truthy (url note).
Proof. unfold matchesFilter. cbn. destruct (JS.truthy (url note)); reflexivity. Qed.

Lemma matchesFilter_documents (note : Note) :
  matchesFilter Documents note = JS.truthy (source note) && negb (JS.truthy (url note)).
Proof. reflexivity. Qed.

Lemma filter_and_le (f g : Note -> bool) (ns : list Note) :
  length (List.filter (fun n => f n && g n) ns) <= length (List.filter g ns).
Proof.
  induction ns as [|n ns IH]; [reflexivity|].
  cbn [List.filter]. destruct (f n), (g n); cbn [andb length]; lia.
Qed.

(** The counts on the Web and Documents buttons are the numbers of notes
    listed under these filters when the search box is empty, and bounds on
    them under any search; with an empty search box and the filter "all"
    every note is listed. *)
Theorem filter_counts_match_list (t : string) (s : State) :
  getFilterCount Web s = length (filterNotes "" Web (notes s))
  ∧ getFilterCount Documents s = length (filterNotes "" Documents (notes s))
  ∧ filterNotes "" All (notes s) = notes s
  ∧ length (filterNotes t Web (notes s)) <= getFilterCount Web s
  ∧ length (filterNotes t Documents (notes s)) <= getFilterCount Documents s.
Proof.
  unfold getFilterCount, filterNotes.
  split; [|split; [|split; [|split]]].
  - f_equal. apply List.filter_ext. intros n. rewrite matchesFilter_web. reflexivity.
  - reflexivity.
  - rewrite (List.filter_ext _ (fun _ => true)) by (intros n; reflexivity).
    induction (notes s) as [|n ns IH]; [reflexivity|].
    cbn [List.filter]. rewrite IH. reflexivity.
  - rewrite (List.filter_ext _ (fun n => matchesSearch t n && JS.truthy (url n)))
      by (intros n; rewrite matchesFilter_web; reflexivity).
    apply filter_and_le.
  - rewrite (List.filter_ext _ (fun n => matchesSearch t n
                                   && (JS.truthy (source n) && negb (JS.truthy (url n)))))
      by (intros n; reflexivity).
    apply filter_and_le.
Qed.

(** The search does not depend on the letter case of the search term. *)
Theorem search_ignores_case_of_term (t : string) (filter : Filter) (ns : list Note) :
  filterNotes (JS.toLowerCase t) filter ns = filterNotes t filter ns.
Proof.
  unfold filterNotes. apply List.filter_ext. intros n. f_equal.
  unfold matchesSearch.
  rewrite JSFacts.toLowerCase_idempotent, JSFacts.toLowerCase_empty. reflexivity.
Qed.

Lemma countBadge_sum (ns : list Note) :
  countBadge BadgeWeb ns + countBadge BadgeDoc ns + countBadge BadgeInt ns = length ns.
Proof.
  unfold countBadge, badge.
  induction ns as [|n ns IH]; [reflexivity|].
  cbn [List.filter].
  destruct (JS.truthy (url n)), (JS.truthy (source n)); cbn [badgeEq length]; lia.
Qed.

(** The badge of a note and the category filters agree: a note is listed
    under "web" exactly when its badge is Web and under "documents" exactly
    when its badge is Doc, so a note with the Int badge is listed under "all"
    only; and the Web count, the Documents count and the number of Int
    notes add up to the number of notes held. *)
Theorem badge_agrees_with_filter (note : Note) (s : State) :
  matchesFilter Web note = badgeEq (badge note) BadgeWeb
  ∧ matchesFilter Documents note = badgeEq (badge note) BadgeDoc
  ∧ getFilterCount Web s + getFilterCount Documents s + countBadge BadgeInt (notes s)
    = length (notes s).
Proof.
  split; [|split].
  - unfold matchesFilter, badge. cbn.
    destruct (JS.truthy (url note)), (JS.truthy (source note)); reflexivity.
  - unfold matchesFilter, badge. cbn.
    destruct (JS.truthy (url note)), (JS.truthy (source note)); reflexivity.
  - rewrite <- (countBadge_sum (notes s)). unfold getFilterCount, countBadge.
    rewrite (List.filter_ext (fun n => badgeEq (badge n) BadgeWeb)
               (fun n => JS.truthy (url n)))
      by (intros n; unfold badge;
          destruct (JS.truthy (url n)), (JS.truthy (source n)); reflexivity).
    rewrite (List.filter_ext (fun n => badgeEq (badge n) BadgeDoc)
               (fun n => JS.truthy (source n) && negb (JS.truthy (url n))))
      by (intros n; unfold badge;
          destruct (JS.truthy (url n)), (JS.truthy (source n)); reflexivity).
    reflexivity.
Qed.

(** *** Reconciliation with the store *)

Lemma storeSyncEffect_on_mission (am : Mission) (m : string) (storeNotes : list Note)
    (st : State) :
  mission_id am = m -> mission_notes am = Some storeNotes ->
  initialLoadDone st = true -> previousMissionId st = Some m ->
  storeSyncEffect (Some am) m st =
  if negb (length storeNotes =? length (notes st))
     || negb (JS.optStrEq (lastNoteId (notes st)) (lastNoteId storeNotes))
  then
    (tt,
     stateOf (setTotalNotesCount (length storeNotes)
                (stateOf (setNotes storeNotes (stateOf (preserveScrollPosition st))))),
     (if notificationThreshold <=? length storeNotes - length (notes st)
      then [SetTimeout (CbAddToast (newNotesToast (length storeNotes - length (notes st)))) 500]
      else [])
     ++ [SetTimeout CbRestoreScrollPosition 50])
  else (tt, st, []).
Proof.
  intros Hid Hnotes Hdone Hprev.
  assert (HZ : ∀ a b, Z.to_nat (0 `max` (Z.of_nat a - Z.of_nat b)) = a - b) by lia.
  unfold storeSyncEffect, preserveScrollPosition. rewrite Hnotes. run_handler.
  rewrite Hid, String.eqb_refl, Hdone. cbn [andb]. run_handler.
  rewrite Hprev, NotesTabSpec.optStrEq_refl.
  destruct (negb (length storeNotes =? length (notes st))
            || negb (JS.optStrEq (lastNoteId (notes st)) (lastNoteId storeNotes)));
    [|reflexivity].
  rewrite HZ.
  destruct (scrollContainer st);
    destruct (notificationThreshold <=? length storeNotes - length (notes st));
    reflexivity.
Qed.

(** The store effect tells a new list from the shown one by its length and
    the id of its last note only: a store list of the same length with the
    same last id is not taken over, whatever else differs in it. *)
Theorem store_sync_sees_length_and_last_id_only (am : Mission) (m : string)
    (storeNotes : list Note) (st : State) :
  mission_id am = m -> mission_notes am = Some storeNotes ->
  initialLoadDone st = true -> previousMissionId st = Some m ->
  length storeNotes = length (notes st) ->
  lastNoteId storeNotes = lastNoteId (notes st) ->
  storeSyncEffect (Some am) m st = (tt, st, []).
Proof.
  intros Hid Hnotes Hdone Hprev Hlen Hlast.
  rewrite (storeSyncEffect_on_mission am m storeNotes st Hid Hnotes Hdone Hprev).
  rewrite Hlen, Nat.eqb_refl, Hlast, NotesTabSpec.optStrEq_refl. reflexivity.
Qed.

Lemma store_sync_sees_length_and_last_id_only_witness :
  [edited note1; note2] ≠ [note1; note2]
  ∧ storeSyncEffect (Some (storeMission "0123456789abcdef" [edited note1; note2]))
      "0123456789abcdef" (showing [note1; note2])
    = (tt, showing [note1; note2], []).
Proof.
  split; [discriminate|].
  apply (store_sync_sees_length_and_last_id_only
           (storeMission "0123456789abcdef" [edited note1; note2])
           "0123456789abcdef" [edited note1; note2] (showing [note1; note2]));
    reflexivity.
Defined.

(** A reconciliation that takes the store's list over keeps the scroll
    offset: it notes the offset of the list, and the timer it sets puts the
    list back to that offset, wherever the re-render has moved it. *)
Theorem store_sync_restores_scroll (am : Mission) (m : string)
    (storeNotes : list Note) (st : State) (top moved : nat) :
  mission_id am = m -> mission_notes am = Some storeNotes ->
  initialLoadDone st = true -> previousMissionId st = Some m ->
  length storeNotes ≠ length (notes st) ->
  scrollContainer st = Some top ->
  In (SetTimeout CbRestoreScrollPosition 50)
     (effectsOf (storeSyncEffect (Some am) m st))
  ∧ notes (stateOf (storeSyncEffect (Some am) m st)) = storeNotes
  ∧ scrollContainer
      (stateOf (runTimer CbRestoreScrollPosition
                  (scrolledTo moved (stateOf (storeSyncEffect (Some am) m st)))))
    = Some top.
Proof.
  intros Hid Hnotes Hdone Hprev Hlen Htop.
  rewrite (storeSyncEffect_on_mission am m storeNotes st Hid Hnotes Hdone Hprev).
  rewrite (proj2 (Nat.eqb_neq _ _) Hlen). cbn [negb orb].
  split; [|split].
  - cbn [effectsOf snd]. apply in_or_app. right. left. reflexivity.
  - reflexivity.
  - unfold preserveScrollPosition, scrolledTo, runTimer, restoreScrollPosition.
    run_handler. rewrite Htop. reflexivity.
Qed.

Lemma store_sync_restores_scroll_witness :
  scrollContainer
    (stateOf (runTimer CbRestoreScrollPosition
                (scrolledTo 0
                   (stateOf (storeSyncEffect (Some (pushed 2)) "m1"
                               (scrolledTo 340 oneNoteLoaded))))))
  = Some 340.
Proof.
  apply (store_sync_restores_scroll (pushed 2) "m1" (note1 :: map pushedNote (seq 1 2))
           (scrolledTo 340 oneNoteLoaded) 340 0); try reflexivity.
  cbn. lia.
Defined.

(** Every toast of the store effect speaks of notes in the plural, and of 5
    or more of them: the singular form of the message is never produced. *)
Theorem new_notes_toast_is_plural (am : option Mission) (m : string) (st : State)
    (t : Toast) :
  In t (toastsOf (effectsOf (storeSyncEffect am m st))) ->
  ∃ n, 5 <= n
       ∧ toast_message t = JS.numToString n +:+ " new notes added"
       ∧ toast_title t = "New Research Notes".
Proof.
  destruct am as [am|]; [|intros []].
  destruct (mission_notes am) as [storeNotes|] eqn:Hnotes.
  - rewrite (NotesTabSpec.storeSyncEffect_toasts am m storeNotes st Hnotes).
    destruct (String.eqb (mission_id am) m && initialLoadDone st
              && JS.optStrEq (previousMissionId st) (Some m)); cbn [andb]; [|intros []].
    destruct (notificationThreshold <=? length storeNotes - length (notes st)) eqn:Hge;
      [|intros []].
    intros [<-|[]]. apply Nat.leb_le in Hge. unfold notificationThreshold in Hge.
    exists (length storeNotes - length (notes st)).
    split; [exact Hge|]. split; [|reflexivity].
    unfold newNotesToast. cbn [toast_message].
    rewrite (proj2 (Nat.ltb_lt 1 _)) by lia. reflexivity.
  - unfold storeSyncEffect. rewrite Hnotes. intros [].
Qed.

Lemma new_notes_toast_is_plural_witness :
  ∃ n, 5 <= n
       ∧ toast_message (newNotesToast 5) = JS.numToString n +:+ " new notes added"
       ∧ toast_title (newNotesToast 5) = "New Research Notes".
Proof.
  apply (new_notes_toast_is_plural (Some (pushed 5)) "m1" oneNoteLoaded (newNotesToast 5)).
  left. reflexivity.
Defined.

(** At most one of the two store effects acts: the effect that seeds the
    list from the store acts only before the initial load is done, the
    effect that reconciles only after; and the seeding never sends
    anything and never empties the list. *)
Theorem store_effects_take_turns (am : option Mission) (m : string) (st : State) :
  (if initialLoadDone st
   then initialStoreSyncEffect am m st = (tt, st, [])
   else storeSyncEffect am m st = (tt, st, []))
  ∧ effectsOf (initialStoreSyncEffect am m st) = []
  ∧ (notes (stateOf (initialStoreSyncEffect am m st)) = [] -> notes st = []).
Proof.
  destruct am as [am|];
    [|destruct (initialLoadDone st); repeat split; intros H; exact H].
  unfold initialStoreSyncEffect, storeSyncEffect.
  destruct (mission_notes am) as [storeNotes|];
    [|destruct (initialLoadDone st); repeat split; intros H; exact H].
  run_handler.
  destruct (initialLoadDone st); rewrite ?andb_false_r; cbn [negb andb].
  - repeat split. intros H; exact H.
  - destruct (String.eqb (mission_id am) m); cbn [andb];
      [|repeat split; intros H; exact H].
    destruct storeNotes as [|n ns]; cbn; repeat split;
      solve [intros H; exact H | discriminate].
Qed.

Lemma store_effects_take_turns_witness : notes initialState = [].
Proof.
  apply (store_effects_take_turns (Some (pushed 0)) "m2" initialState).
  reflexivity.
Defined.

(** *** Pagination *)

Lemma loadMoreNotes_page (m : string) (total : nat) (page : list Note) (st : State) :
  hasMoreNotes st = true -> isLoadingMore st = false ->
  notes (stateOf (loadMoreNotes m (Fulfilled (Page page (Some total) (Some true))) st))
    = notes st ++ page
  ∧ hasMoreNotes (stateOf (loadMoreNotes m (Fulfilled (Page page (Some total) (Some true))) st))
    = true
  ∧ isLoadingMore (stateOf (loadMoreNotes m (Fulfilled (Page page (Some total) (Some true))) st))
    = false
  ∧ effectsOf (loadMoreNotes m (Fulfilled (Page page (Some total) (Some true))) st)
    = [ApiGet (notesPath m 100 (length (notes st)));
       SetMissionNotes m (notes st ++ page)].
Proof.
  intros Hmore Hidle.
  unfold loadMoreNotes, loadMoreNotes_request, loadMoreNotes_settled. run_handler.
  rewrite Hmore, Hidle. repeat split.
Qed.

Lemma loadPages_from (m : string) (total : nat) (pages : list (list Note))
    (st : State) (done : list Effect) :
  hasMoreNotes st = true -> isLoadingMore st = false ->
  let result :=
    foldl (fun acc page =>
             let r := loadMoreNotes m (Fulfilled (Page page (Some total) (Some true)))
                        acc.1 in
             (stateOf r, acc.2 ++ effectsOf r))
          (st, done) pages in
  notes result.1 = notes st ++ concat pages
  ∧ requestsOf result.2
    = requestsOf done ++ map (notesPath m 100) (pageOffsets (length (notes st)) pages)
  ∧ lastStoreWrite result.2
    = (if pages is [] then lastStoreWrite done else Some (m, notes result.1)).
Proof.
  revert st done.
  induction pages as [|page pages IH]; intros st done Hmore Hidle.
  - cbn. rewrite !app_nil_r. repeat split.
  - cbn [foldl fst snd].
    destruct (loadMoreNotes_page m total page st Hmore Hidle) as (Hn & Hm & Hi & He).
    specialize (IH _ (done ++ effectsOf
                        (loadMoreNotes m (Fulfilled (Page page (Some total) (Some true))) st))
                  Hm Hi).
    cbn zeta in IH. destruct IH as (IHn & IHr & IHw).
    cbn zeta. split; [|split].
    + rewrite IHn, Hn. cbn [concat]. rewrite app_assoc. reflexivity.
    + rewrite IHr, Hn, He. cbn [pageOffsets map]. unfold requestsOf.
      rewrite omap_app. cbn [omap]. rewrite length_app, <- app_assoc. reflexivity.
    + rewrite IHw. destruct pages as [|page' pages]; [|reflexivity].
      cbn [foldl fst]. rewrite He, Hn. unfold lastStoreWrite. rewrite omap_app.
      exact (last_snoc (m, notes st ++ page) _).
Qed.

(** Pages loaded one after the other add up: the list is the notes held
    before followed by the pages in their order, each page is asked for at
    the offset of the notes held when it is asked for, and the list written
    to the store last is the list on display. *)
Theorem pages_append_in_order (m : string) (total : nat) (pages : list (list Note))
    (st : State) :
  hasMoreNotes st = true -> isLoadingMore st = false ->
  notes (loadPages m total pages st).1 = notes st ++ concat pages
  ∧ requestsOf (loadPages m total pages st).2
    = map (notesPath m 100) (pageOffsets (length (notes st)) pages)
  ∧ lastStoreWrite (loadPages m total pages st).2
    = (if pages is [] then None else Some (m, notes (loadPages m total pages st).1)).
Proof.
  intros Hmore Hidle.
  exact (loadPages_from m total pages st [] Hmore Hidle).
Qed.

Lemma pages_append_in_order_witness :
  notes (loadPages "m1" 4 [[note2]; [ruledNote; noteA]]
           (stateOf (loadInitialNotes "m1" (Fulfilled (Page [note1] (Some 4) (Some true)))
                       initialState))).1
    = [note1; note2; ruledNote; noteA]
  ∧ requestsOf (loadPages "m1" 4 [[note2]; [ruledNote; noteA]]
           (stateOf (loadInitialNotes "m1" (Fulfilled (Page [note1] (Some 4) (Some true)))
                       initialState))).2
    = ["/api/missions/m1/notes?limit=100&offset=1";
       "/api/missions/m1/notes?limit=100&offset=2"].
Proof.
  split;
    apply (pages_append_in_order "m1" 4 [[note2]; [ruledNote; noteA]]
             (stateOf (loadInitialNotes "m1"
                         (Fulfilled (Page [note1] (Some 4) (Some true))) initialState)));
    reflexivity.
Defined.

Lemma clickLoadMore_sends (m : string) (st : State) :
  hasMoreNotes st = true -> isLoadingMore st = false ->
  clickLoadMore m st
  = (Some (length (notes st)), stateOf (setIsLoadingMore true st),
     [ApiGet (notesPath m 100 (length (notes st)))]).
Proof.
  intros Hmore Hidle.
  unfold clickLoadMore, loadControlsShown, loadMoreDisabled, loadMoreNotes_request.
  run_handler. rewrite Hmore, Hidle. cbn [orb andb negb]. run_handler.
  rewrite Hmore, Hidle. cbn [orb andb negb]. run_handler.
  rewrite ?Hmore. reflexivity.
Qed.

Lemma clickLoadAll_sends (m : string) (st : State) :
  hasMoreNotes st = true -> isLoading st = false ->
  clickLoadAll m st
  = (true, stateOf (setIsLoading true st), [ApiGet (notesPath m 999999 0)]).
Proof.
  intros Hmore Hidle.
  unfold clickLoadAll, loadControlsShown, loadAllDisabled, loadAllNotes_request.
  run_handler. rewrite Hmore, Hidle. cbn [orb andb negb]. run_handler.
  rewrite Hmore. cbn [orb andb negb]. run_handler.
  rewrite ?Hmore. reflexivity.
Qed.

(** Load All is not held back by a Load More in flight, and the two answers
    are both applied: when the full list arrives first and the page after
    it, the page is appended to the full list. *)
Theorem load_all_overtakes_load_more (m : string) (allData pageData : NotesData)
    (st : State) :
  hasMoreNotes st = true -> isLoading st = false -> isLoadingMore st = false ->
  valueOf (clickLoadMore m st) = Some (length (notes st))
  ∧ valueOf (clickLoadAll m (stateOf (clickLoadMore m st))) = true
  ∧ notes (stateOf (loadMoreNotes_settled m (length (notes st)) (Fulfilled pageData)
             (stateOf (loadAllNotes_settled m (Fulfilled allData)
                (stateOf (clickLoadAll m (stateOf (clickLoadMore m st))))))))
    = data_notes allData ++ data_notes pageData.
Proof.
  intros Hmore Hidle Hidle'.
  pose proof (clickLoadAll_sends m (stateOf (setIsLoadingMore true st)) Hmore Hidle)
    as Hall.
  rewrite (clickLoadMore_sends m st Hmore Hidle').
  cbn [valueOf stateOf fst snd] in Hall |- *. rewrite Hall.
  repeat split.
Qed.

Lemma load_all_overtakes_load_more_witness :
  notes (stateOf (loadMoreNotes_settled "m1" 1 (Fulfilled (BareArray [note2]))
           (stateOf (loadAllNotes_settled "m1" (Fulfilled (BareArray [note1; note2]))
              (stateOf (clickLoadAll "m1" (stateOf (clickLoadMore "m1"
                 (stateOf (loadInitialNotes "m1"
                    (Fulfilled (Page [note1] (Some 2) (Some true))) initialState))))))))))
  = [note1; note2; note2].
Proof.
  apply (load_all_overtakes_load_more "m1" (BareArray [note1; note2]) (BareArray [note2])
           (stateOf (loadInitialNotes "m1"
                       (Fulfilled (Page [note1] (Some 2) (Some true))) initialState)));
    reflexivity.
Defined.

(** No request is withdrawn when the tab moves to another mission. The
    answer to an initial load is applied whatever mission the tab is on by
    then; when it arrives after the move and the new mission's own request
    fails, the tab shows the old mission's notes under the new mission and
    takes its initial load for done, so that load is not tried again. *)
Theorem stale_initial_answer_sticks (m1 m2 : string) (data : NotesData)
    (r : Settled) (st : State) :
  m1 ≠ m2 ->
  valueOf (loadInitialNotes_request m2 (stateOf (loadInitialNotes_request m1 st))) = true
  ∧ notes (stateOf (loadInitialNotes_settled m2 Rejected
             (stateOf (loadInitialNotes_settled m1 (Fulfilled data)
                (stateOf (loadInitialNotes_request m2
                   (stateOf (loadInitialNotes_request m1 st))))))))
    = data_notes data
  ∧ loadInitialNotes m2 r
      (stateOf (loadInitialNotes_settled m2 Rejected
         (stateOf (loadInitialNotes_settled m1 (Fulfilled data)
            (stateOf (loadInitialNotes_request m2
               (stateOf (loadInitialNotes_request m1 st)))))))) 
    = (tt,
       stateOf (loadInitialNotes_settled m2 Rejected
         (stateOf (loadInitialNotes_settled m1 (Fulfilled data)
            (stateOf (loadInitialNotes_request m2
               (stateOf (loadInitialNotes_request m1 st))))))),
       []).
Proof.
  intros Hne.
  pose proof (NotesTabSpec.loadInitialNotes_request_previous m1 st) as Hp1.
  pose proof (NotesTabSpec.loadInitialNotes_request_previous m2
                (stateOf (loadInitialNotes_request m1 st))) as Hp2.
  set (s1 := stateOf (loadInitialNotes_request m1 st)) in *.
  split; [|split].
  - unfold loadInitialNotes_request. run_handler. rewrite Hp1.
    destruct (JS.optStrEq (Some m1) (Some m2)) eqn:Heq; [|reflexivity].
    apply NotesTabSpec.optStrEq_eq in Heq. congruence.
  - reflexivity.
  - unfold loadInitialNotes, bind.
    rewrite NotesTabSpec.loadInitialNotes_request_done; [reflexivity|reflexivity|].
    exact Hp2.
Qed.

Lemma stale_initial_answer_sticks_witness :
  notes (stateOf (loadInitialNotes_settled "m2" Rejected
           (stateOf (loadInitialNotes_settled "m1" (Fulfilled (BareArray [note1]))
              (stateOf (loadInitialNotes_request "m2"
                 (stateOf (loadInitialNotes_request "m1" initialState))))))))
  = [note1].
Proof.
  apply (stale_initial_answer_sticks "m1" "m2" (BareArray [note1]) Rejected initialState).
  discriminate.
Defined.

(** Once the has-more flag is down, neither button of the load controls
    loads anything, also when the controls are shown because fewer notes
    are held than the total says. *)
Theorem load_controls_dead_without_has_more (m : string) (st : State) :
  hasMoreNotes st = false -> length (notes st) < totalNotesCount st ->
  loadControlsShown st = true
  ∧ clickLoadMore m st = (None, st, [])
  ∧ clickLoadAll m st = (false, st, []).
Proof.
  intros Hmore Hlt.
  unfold clickLoadMore, clickLoadAll, loadControlsShown, loadMoreDisabled, loadAllDisabled.
  run_handler. rewrite Hmore, (proj2 (Nat.ltb_lt _ _) Hlt).
  rewrite !orb_true_r. repeat split.
Qed.

Lemma load_controls_dead_without_has_more_witness :
  loadControlsShown
    (stateOf (loadAllNotes "m1" (Fulfilled (Page [note1] (Some 3) None)) initialState))
  = true
  ∧ clickLoadMore "m1"
      (stateOf (loadAllNotes "m1" (Fulfilled (Page [note1] (Some 3) None)) initialState))
    = (None,
       stateOf (loadAllNotes "m1" (Fulfilled (Page [note1] (Some 3) None)) initialState),
       []).
Proof.
  split;
    apply (load_controls_dead_without_has_more "m1"
             (stateOf (loadAllNotes "m1" (Fulfilled (Page [note1] (Some 3) None))
                         initialState)));
    solve [reflexivity | cbn; lia].
Defined.

(** *** What the tab never does *)

Lemma handleEvent_keeps_newNotesCount (m : string) (ev : TabEvent) (st : State) :
  newNotesCount st = 0 -> newNotesCount (stateOf (handleEvent m ev st)) = 0.
Proof.
  intros Hzero.
  destruct ev as [r| |r|r| |n r|r| |r| | |am|am|cb| | | | |fmt];
    cbn [handleEvent]; unfold forget.
  - unfold loadInitialNotes, loadInitialNotes_request, loadInitialNotes_settled.
    destruct r; by_cases; solve [reflexivity | assumption].
  - unfold loadInitialNotes_request. by_cases; solve [reflexivity | assumption].
  - destruct r; assumption.
  - unfold loadMoreNotes, loadMoreNotes_request. destruct r; by_cases; assumption.
  - unfold loadMoreNotes_request. by_cases; assumption.
  - destruct r; assumption.
  - unfold loadAllNotes, loadAllNotes_request. destruct r; by_cases; assumption.
  - unfold loadAllNotes_request. by_cases; assumption.
  - destruct r; assumption.
  - unfold clickLoadMore, loadMoreNotes_request. by_cases; assumption.
  - unfold clickLoadAll, loadAllNotes_request. by_cases; assumption.
  - unfold storeSyncEffect, preserveScrollPosition.
    destruct am as [am|]; [destruct (mission_notes am)|]; by_cases; assumption.
  - unfold initialStoreSyncEffect.
    destruct am as [am|]; [destruct (mission_notes am)|]; by_cases; assumption.
  - destruct cb; unfold runTimer, restoreScrollPosition; by_cases; assumption.
  - unfold handleScroll. by_cases; solve [reflexivity | assumption].
  - assumption.
  - assumption.
  - assumption.
  - unfold clickExport, handleExportNotes. by_cases; assumption.
Qed.

(** The counter of new notes is never raised: whatever happens to the tab,
    on whatever missions, it stays 0, so the scroll listener that resets it
    never changes anything. *)
Theorem newNotesCount_stays_zero (evs : list (string * TabEvent)) :
  newNotesCount (afterTabEvents evs initialState) = 0
  ∧ handleScroll (afterTabEvents evs initialState)
    = (tt, afterTabEvents evs initialState, []).
Proof.
  assert (Hzero : newNotesCount (afterTabEvents evs initialState) = 0).
  { unfold afterTabEvents.
    assert (Hgen : ∀ st, newNotesCount st = 0 ->
              newNotesCount (foldl (fun s mev => stateOf (handleEvent mev.1 mev.2 s)) st evs)
              = 0).
    { induction evs as [|[m ev] evs IH]; intros st Hst; [exact Hst|].
      cbn [foldl fst snd]. apply IH. apply handleEvent_keeps_newNotesCount. exact Hst. }
    apply Hgen. reflexivity. }
  split; [exact Hzero|].
  unfold handleScroll. run_handler. rewrite Hzero. reflexivity.
Qed.

End NotesTabExtra.

Module WritingChatPanelExtra.
Import WritingChatPanel WritingChatControls WritingChatSettings ChatFixtures.

Lemma settingsFromTools_toolsOf (userParams : option ResearchParameters) (s : State) :
  settingsFromTools userParams (toolsOf s) = searchSettings s.
Proof. destruct s as [msg grp [web deep mi mq di dq]]. reflexivity. Qed.

Lemma savedTools_chatSettingsOf (chat : Chat) (s : State) :
  savedTools {| chat_id := chat_id chat; chat_settings := Some (chatSettingsOf chat s) |}
  = Some (toolsOf s).
Proof.
  unfold savedTools, chatSettingsOf. cbn [chat_settings].
  rewrite lookup_insert_eq. reflexivity.
Qed.

(** Saving the tool settings and loading them back gives the panel the
    same search settings, whatever the user's preferences are by then, and
    the same document group, except that an empty group id comes back as no
    group. The save puts to the chat it holds that chat's settings with the
    tools of the panel, and on success makes that chat, so changed, the
    store's active chat, whatever chat the store holds by then. *)
Theorem tool_settings_round_trip (userParams : option ResearchParameters)
    (held : Chat) (current : option Chat) (s : State) (opened : SettingsState) :
  effectsOf (saveToolSettings (Some held) Fulfilled (idlePanel s))
    = [ApiPut ("/api/chats/" +:+ chat_id held) (chatSettingsOf held s);
       StoreSetActiveChat {| chat_id := chat_id held;
                             chat_settings := Some (chatSettingsOf held s) |}]
  ∧ activeChatAfter current
      (effectsOf (saveToolSettings (Some held) Fulfilled (idlePanel s)))
    = Some {| chat_id := chat_id held; chat_settings := Some (chatSettingsOf held s) |}
  ∧ panel (stateOf (loadChatSettings userParams
             (activeChatAfter current
                (effectsOf (saveToolSettings (Some held) Fulfilled (idlePanel s))))
             opened))
    = {| message := message (panel opened);
         selectedGroupId := if JS.truthy (selectedGroupId s) then selectedGroupId s
                            else None;
         searchSettings := searchSettings s |}.
Proof.
  split; [reflexivity|]. split; [reflexivity|].
  change (activeChatAfter current
            (effectsOf (saveToolSettings (Some held) Fulfilled (idlePanel s))))
    with (Some {| chat_id := chat_id held;
                  chat_settings := Some (chatSettingsOf held s) |}).
  unfold loadChatSettings. rewrite savedTools_chatSettingsOf.
  cbv [bind update emit setIsLoadingChatSettings setPanel stateOf].
  cbn [fst snd panel]. rewrite settingsFromTools_toolsOf. reflexivity.
Qed.

(** The Enter key sends exactly when the send button would: Enter without
    Shift puts a message in flight if and only if the button is enabled,
    and any key pressed with Shift changes nothing and sends nothing. *)
Theorem enter_key_sends_like_button (v : StoreView) (e : KeyboardEvent)
    (k : string) (s : State) :
  valueOf (handleKeyPress v e s)
    = (String.eqb (key e) "Enter" && negb (shiftKey e),
       String.eqb (key e) "Enter" && negb (shiftKey e) && negb (sendDisabled v s))
  ∧ handleKeyPress v {| key := k; shiftKey := true |} s = ((false, false), s, []).
Proof.
  split.
  - unfold handleKeyPress, handleSendMessage_request, sendDisabled.
    destruct (String.eqb (key e) "Enter" && negb (shiftKey e)); [|reflexivity].
    run_handler.
    destruct (negb (JS.truthyStr (JS.trim (message s))) || isLoading v); reflexivity.
  - unfold handleKeyPress. cbn [key shiftKey negb]. rewrite andb_false_r. reflexivity.
Qed.

(** Deep search outlives its switch. With deep search on, switching web
    search off while no document group is selected hides the deep-search
    switch, and a click on it would do nothing; what is sent afterwards
    still says deep search and carries the deep-search limits. *)
Theorem deep_search_outlives_its_switch (v : StoreView) (messageId : string) (s : State) :
  deepSearch (searchSettings s) = true -> useWebSearch (searchSettings s) = true ->
  JS.truthy (selectedGroupId s) = false -> isLoading v = false ->
  deepSearchShown (stateOf (clickWebSearch v s)) = false
  ∧ clickDeepSearch v (stateOf (clickWebSearch v s))
    = (tt, stateOf (clickWebSearch v s), [])
  ∧ opt_deepSearch (toolOptions (stateOf (clickWebSearch v s))) = true
  ∧ opt_useWebSearch (toolOptions (stateOf (clickWebSearch v s))) = false
  ∧ omap limitsPassed (effectsOf (handleRegenerate_request messageId
                                    (stateOf (clickWebSearch v s))))
    = [(deepSearchIterations (searchSettings s), deepSearchQueries (searchSettings s))].
Proof.
  intros Hdeep Hweb Hgroup Hidle.
  unfold clickWebSearch. rewrite Hidle.
  unfold clickDeepSearch, deepSearchShown, deepSearchDisabled, toggleWebSearch,
    setSearchSettings, toolOptions, handleRegenerate_request, limitsPassed.
  run_handler. cbn. rewrite Hdeep, Hweb, Hgroup. repeat split.
Qed.

Lemma deep_search_outlives_its_switch_witness :
  deepSearchShown (stateOf (clickWebSearch idleStore (typed "hi" true))) = false
  ∧ omap limitsPassed (effectsOf (handleRegenerate_request "msg-1"
                                    (stateOf (clickWebSearch idleStore (typed "hi" true)))))
    = [(3, 5)].
Proof.
  split;
    apply (deep_search_outlives_its_switch idleStore "msg-1" (typed "hi" true));
    reflexivity.
Defined.

(** The document-group select shows what it is given back: choosing the
    value on display leaves the display as it is. It gives back the selected
    group itself unless the group's id is empty or is the word "none", which
    both come back as no group: a group with the id "none" cannot be
    selected. *)
Theorem select_round_trip (s : State) :
  selectValue (stateOf (onValueChange (selectValue s) s)) = selectValue s
  ∧ selectedGroupId (stateOf (onValueChange (selectValue s) s))
    = (if JS.truthy (selectedGroupId s)
          && negb (JS.optStrEq (selectedGroupId s) (Some "none"))
       then selectedGroupId s else None)
  ∧ selectedGroupId (stateOf (onValueChange "none" s)) = None.
Proof.
  unfold selectValue, onValueChange.
  destruct (selectedGroupId s) as [[|c g]|] eqn:Hsel.
  - repeat split.
  - change (JS.orElse (Some (String c g)) "none") with (String c g).
    cbn [JS.truthy JS.truthyStr JS.optStrEq andb].
    destruct (String.eqb (String c g) "none") eqn:Hnone.
    + apply String.eqb_eq in Hnone. repeat split. symmetry. exact Hnone.
    + repeat split.
  - repeat split.
Qed.

(** While the agent is working, the panel is loading and its bubble shows
    the agent's status as it is, and that text is not empty. *)
Theorem working_agent_status_is_shown (v : StoreView) :
  agentWorking v = true ->
  isLoading v = true
  ∧ ∃ status, agentStatus v = Some status
              ∧ loadingBubble v = Some status
              ∧ status ≠ "".
Proof.
  unfold loadingBubble, isLoading, agentWorking, getAgentStatusMessage.
  destruct (agentStatus v) as [status|]; [|discriminate].
  intros Hworking. rewrite Hworking, orb_true_r. split; [reflexivity|].
  exists status.
  apply andb_true_iff in Hworking as [Hworking Hlist].
  apply andb_true_iff in Hworking as [Htruthy _].
  rewrite Htruthy. cbn [negb orb].
  destruct (String.eqb status "idle") eqn:Hidle.
  - cbn [existsb] in Hlist. rewrite Hidle in Hlist. discriminate Hlist.
  - repeat split. intros ->. discriminate Htruthy.
Qed.

Lemma working_agent_status_is_shown_witness :
  isLoading {| currentSession := None; activeChat := Some "chat-1";
               getSessionLoading := fun _ => false;
               agentStatus := Some "Searching the web" |} = true.
Proof.
  apply (working_agent_status_is_shown
           {| currentSession := None; activeChat := Some "chat-1";
              getSessionLoading := fun _ => false;
              agentStatus := Some "Searching the web" |}).
  reflexivity.
Defined.

(** Opening a chat never writes to it: while the chat's settings are being
    loaded a save does nothing, so the settings the panel held for the chat
    before are not sent to the chat just opened; loading sets one timer,
    and when it fires saving is possible again. *)
Theorem opening_a_chat_holds_saves (userParams : option ResearchParameters)
    (chat : Chat) (r : Settled) (st : SettingsState) :
  saveToolSettings (Some chat) r (stateOf (loadChatSettings userParams (Some chat) st))
    = (tt, stateOf (loadChatSettings userParams (Some chat) st), [])
  ∧ effectsOf (loadChatSettings userParams (Some chat) st) = [SettingsTimeout 100]
  ∧ valueOf (saveToolSettings_request (Some chat)
               (stateOf (chatSettingsLoaded
                           (stateOf (loadChatSettings userParams (Some chat) st)))))
    = Some (chat,
            chatSettingsOf chat
              (panel (stateOf (loadChatSettings userParams (Some chat) st)))).
Proof.
  unfold loadChatSettings, saveToolSettings, saveToolSettings_request, chatSettingsLoaded.
  destruct (savedTools chat); repeat split.
Qed.

End WritingChatPanelExtra.
